(** * kittylyst: running metrics and the reference engine

    A shallow embedding of [kittylyst/metric.py] ([AverageMetric],
    [AccuracyMetric]) and of [kittylyst/engine.py] ([Engine]), with the
    properties of their behaviour stated and proved on the embedding.

    Modelling conventions.
    - Python [int] is [Z].  Python [float] is modelled by exact rational
      arithmetic ([Qc], canonical rationals, with Leibniz equality); the
      not-a-number of [np.nan] is the constructor [NaN]; a square root, which
      has no rational value in general, is kept symbolically as [Sqrt q].
    - A Python exception is a [Raise e] outcome.  A method of a mutable object
      is a function from the object's state to an outcome and the new state,
      so that the mutations done before an exception are kept.
    - A dict with string keys is a [gmap string _]. *)

From Stdlib Require Import ZArith QArith Qcanon List String Lia Field.
From stdpp Require Import base option list strings gmap.

Local Open Scope Z_scope.

(** ** Python outcomes *)

Inductive exn : Type :=
  | ZeroDivisionError
  | TypeError
  | AttributeError
  | KeyError.

Inductive result (A : Type) : Type :=
  | Ok (a : A)
  | Raise (e : exn).
Arguments Ok {A} a.
Arguments Raise {A} e.

(** ** Numbers *)

(** [float(z)] for a Python int [z]. *)
Definition float (z : Z) : Qc := Q2Qc (inject_Z z).

(** A float-valued attribute: [np.nan], a finite number, or [np.sqrt(q)]. *)
Inductive pyfloat : Type :=
  | NaN
  | Num (q : Qc)
  | Sqrt (q : Qc).

(** True division of two floats: Python raises on a zero divisor. *)
Definition truediv (a b : Qc) : result Qc :=
  if Qc_eq_dec b 0%Qc then Raise ZeroDivisionError else Ok (a / b)%Qc.

(** ** metric.py *)

Module AverageMetric.

Record t : Type := mk {
  compute_on_call : bool;
  n : Z;
  value : Qc;
  mean : pyfloat;
  mean_old : Qc;
  m_s : Qc;
  std : pyfloat;
  num_samples : Z
}.

(** [AverageMetric.__init__] *)
Definition init (compute_on_call : bool) : t :=
  {| compute_on_call := compute_on_call;
     n := 0;
     value := 0%Qc;
     mean := NaN;
     mean_old := 0%Qc;
     m_s := 0%Qc;
     std := NaN;
     num_samples := 0 |}.

(** [AverageMetric.reset] *)
Definition reset (self : t) : t :=
  {| compute_on_call := compute_on_call self;
     n := 0;
     value := 0%Qc;
     mean := NaN;
     mean_old := 0%Qc;
     m_s := 0%Qc;
     std := NaN;
     num_samples := 0 |}.

(** Attribute writes [self.x = v]. *)
Definition set_n (v : Z) (self : t) : t :=
  mk (compute_on_call self) v (value self) (mean self) (mean_old self)
     (m_s self) (std self) (num_samples self).
Definition set_value (v : Qc) (self : t) : t :=
  mk (compute_on_call self) (n self) v (mean self) (mean_old self)
     (m_s self) (std self) (num_samples self).
Definition set_mean (v : pyfloat) (self : t) : t :=
  mk (compute_on_call self) (n self) (value self) v (mean_old self)
     (m_s self) (std self) (num_samples self).
Definition set_mean_old (v : Qc) (self : t) : t :=
  mk (compute_on_call self) (n self) (value self) (mean self) v
     (m_s self) (std self) (num_samples self).
Definition set_m_s (v : Qc) (self : t) : t :=
  mk (compute_on_call self) (n self) (value self) (mean self) (mean_old self)
     v (std self) (num_samples self).
Definition set_std (v : pyfloat) (self : t) : t :=
  mk (compute_on_call self) (n self) (value self) (mean self) (mean_old self)
     (m_s self) v (num_samples self).
Definition set_num_samples (v : Z) (self : t) : t :=
  mk (compute_on_call self) (n self) (value self) (mean self) (mean_old self)
     (m_s self) (std self) v.

(** [AverageMetric.update].  The attribute writes are done one after the
    other, so an exception in the middle leaves the earlier ones done.
    [new_mean] is the finite number just written to [self.mean], which the
    following statements read back. *)
Definition update (self : t) (value0 : Qc) (num_samples0 : Z)
  : result unit * t :=
  let self := set_value value0 self in
  let self := set_n (n self + 1) self in
  let self := set_num_samples (num_samples self + num_samples0) self in
  if n self =? 1 then
    let new_mean := (0 + value0)%Qc in
    let self := set_mean (Num new_mean) self in
    let self := set_std (Num 0%Qc) self in
    let self := set_mean_old new_mean self in
    let self := set_m_s 0%Qc self in
    (Ok tt, self)
  else
    match truediv ((value0 - mean_old self) * float num_samples0)%Qc
                  (float (num_samples self)) with
    | Raise e => (Raise e, self)
    | Ok d =>
      let new_mean := (mean_old self + d)%Qc in
      let self := set_mean (Num new_mean) self in
      let self :=
        set_m_s (m_s self
                 + (value0 - mean_old self) * (value0 - new_mean)
                   * float num_samples0)%Qc self in
      let self := set_mean_old new_mean self in
      match truediv (m_s self) (float (num_samples self) - 1)%Qc with
      | Raise e => (Raise e, self)
      | Ok v => (Ok tt, set_std (Sqrt v) self)
      end
    end.


(** Feeding a sequence of [(value, num_samples)] pairs, in order; the
    first exception stops the run. *)
Fixpoint update_all (self : t) (l : list (Qc * Z)) : result unit * t :=
  match l with
  | [] => (Ok tt, self)
  | (v, w) :: l' =>
    match update self v w with
    | (Ok _, self') => update_all self' l'
    | (Raise e, self') => (Raise e, self')
    end
  end.

End AverageMetric.

(** The objects of the [logits] sequence carry their number in [.data]. *)
Record Value : Type := mkValue { data : Qc }.

(** [x > 0] on floats. *)
Definition gt0 (x : Qc) : bool :=
  match (x ?= 0)%Qc with Gt => true | _ => false end.

(** [sum] of a list of booleans: the number of [True]. *)
Definition sum_bool (l : list bool) : Z :=
  fold_left (fun acc (b : bool) => acc + (if b then 1 else 0)) l 0.

(** [zip]: stops at the end of the shorter sequence. *)
Fixpoint zip {A B : Type} (l1 : list A) (l2 : list B) : list (A * B) :=
  match l1, l2 with
  | a :: l1', b :: l2' => (a, b) :: zip l1' l2'
  | _, _ => []
  end.

Module AccuracyMetric.

(** [AccuracyMetric.update]: [len(accuracy)] is a Python int and
    [sum(accuracy) / len(accuracy)] a true division of ints. *)
Definition update (self : AverageMetric.t)
    (logits : list Value) (targets : list Qc)
  : result unit * AverageMetric.t :=
  let accuracy :=
    map (fun '(yi, li) => Bool.eqb (gt0 yi) (gt0 (data li)))
        (zip targets logits) in
  let len_accuracy := Z.of_nat (length accuracy) in
  match truediv (float (sum_bool accuracy)) (float len_accuracy) with
  | Raise e => (Raise e, self)
  | Ok value => AverageMetric.update self value len_accuracy
  end.


End AccuracyMetric.

(** ** engine.py *)

(** The opaque Python values the engine passes around: components, checkpoint
    entries, what a factory returns. *)
#[warnings="-register-all"] Inductive pyval : Type :=
  | PyNone
  | PyInt (z : Z)
  | PyFloat (q : Qc)
  | PyStr (s : string)
  | PyTuple (l : list pyval).

(** Keyword arguments of a call, in call order. *)
Definition kwargs : Type := list (string * pyval).

(** The state a method call can act on: the engine object's attributes, what
    was printed so far, and the rest of the world [W] (whatever the injected
    factories read and write). *)
Record machine (W : Type) : Type := mkMachine {
  checkpoint_dump : option (gmap string pyval);  (* [self._checkpoint_dump], absent until set *)
  stdout : list string;
  world : W
}.
Arguments mkMachine {W} _ _ _.
Arguments checkpoint_dump {W} _.
Arguments stdout {W} _.
Arguments world {W} _.

(** Computations that may raise and that act on the machine. *)
Definition M (W A : Type) : Type := machine W -> result A * machine W.

Definition ret {W A : Type} (a : A) : M W A := fun m => (Ok a, m).

Definition raise {W A : Type} (e : exn) : M W A := fun m => (Raise e, m).

Definition bind {W A B : Type} (c : M W A) (k : A -> M W B) : M W B :=
  fun m =>
    match c m with
    | (Ok a, m') => k a m'
    | (Raise e, m') => (Raise e, m')
    end.

Notation "'let*' x := c 'in' k" := (bind c (fun x => k))
  (at level 10, x name, c at level 100, k at level 200).
Notation "'do' c 'then' k" := (bind c (fun _ => k))
  (at level 10, c at level 100, k at level 200).

(** A Python callable taking keyword arguments; [None] stands for the Python
    value [None], which is not callable. *)
Definition callable (W : Type) : Type := kwargs -> M W pyval.

Definition call {W : Type} (f : option (callable W)) (args : kwargs)
  : M W pyval :=
  match f with
  | Some g => g args
  | None => raise TypeError
  end.

(** [print(a, b)]: the arguments separated by a space; each entry of
    [stdout] is one printed line. *)
Definition print {W : Type} (a b : string) : M W unit :=
  fun m =>
    (Ok tt,
     mkMachine (checkpoint_dump m)
               (stdout m ++ [String.append a (String.append " " b)])
               (world m)).

(** [d[k]] on a dict. *)
Definition getitem {W : Type} (d : gmap string pyval) (k : string)
  : M W pyval :=
  match d !! k with
  | Some v => ret v
  | None => raise KeyError
  end.

Module Engine.

Definition rank : Z := -1.

Definition world_size : Z := 1.

Definition sync_device (tensor_or_module : pyval) : pyval := tensor_or_module.

Definition sync_tensor (tensor : pyval) : pyval := tensor.

(** [Engine.init_components] *)
Definition init_components {W : Type}
    (model_fn criterion_fn optimizer_fn scheduler_fn : option (callable W))
  : M W pyval :=
  let* model := call model_fn [] in
  let* criterion := call criterion_fn [] in
  let* optimizer := call optimizer_fn [("model"%string, model)] in
  let* scheduler := call scheduler_fn [("optimizer"%string, optimizer)] in
  ret (PyTuple [model; criterion; optimizer; scheduler]).

(** [Engine.pack_checkpoint], the body: the four fixed entries, then
    [**kwargs], which holds the keywords not named like a parameter. *)
Definition pack_checkpoint (model criterion optimizer scheduler : pyval)
    (kw : kwargs) : gmap string pyval :=
  fold_left (fun d '(k, v) => <[k := v]> d) kw
    (<["scheduler"%string := scheduler]>
     (<["optimizer"%string := optimizer]>
      (<["criterion"%string := criterion]>
       (<["model"%string := model]> ∅)))).

(** The local names of a running [unpack_checkpoint]: its parameters. *)
Record unpack_locals : Type := mkLocals {
  l_checkpoint : gmap string pyval;
  l_model : pyval;
  l_criterion : pyval;
  l_optimizer : pyval;
  l_scheduler : pyval;
  l_kwargs : kwargs
}.

(** The body of [Engine.unpack_checkpoint]: four assignments to local
    names.  It gives the locals as they are when the body ends. *)
Definition unpack_checkpoint_body {W : Type} (l : unpack_locals)
  : M W unpack_locals :=
  let* v := getitem (l_checkpoint l) "model" in
  let l := mkLocals (l_checkpoint l) v (l_criterion l) (l_optimizer l)
                    (l_scheduler l) (l_kwargs l) in
  let* v := getitem (l_checkpoint l) "criterion" in
  let l := mkLocals (l_checkpoint l) (l_model l) v (l_optimizer l)
                    (l_scheduler l) (l_kwargs l) in
  let* v := getitem (l_checkpoint l) "optimizer" in
  let l := mkLocals (l_checkpoint l) (l_model l) (l_criterion l) v
                    (l_scheduler l) (l_kwargs l) in
  let* v := getitem (l_checkpoint l) "scheduler" in
  let l := mkLocals (l_checkpoint l) (l_model l) (l_criterion l)
                    (l_optimizer l) v (l_kwargs l) in
  ret l.

(** [Engine.unpack_checkpoint]: the call binds the arguments to fresh
    local names, runs the body, drops the locals and returns [None]. *)
Definition unpack_checkpoint {W : Type} (checkpoint : gmap string pyval)
    (model criterion optimizer scheduler : pyval) (kw : kwargs)
  : M W pyval :=
  do unpack_checkpoint_body
       (mkLocals checkpoint model criterion optimizer scheduler kw)
  then ret PyNone.

(** [Engine.save_checkpoint] *)
Definition save_checkpoint {W : Type} (checkpoint : gmap string pyval)
    (path : string) : M W pyval :=
  do print "checkpoint saved at " path
  then (fun m => (Ok PyNone,
             mkMachine (Some checkpoint) (stdout m) (world m))).

(** [Engine.load_checkpoint]: reading an attribute that was never set
    raises [AttributeError]. *)
Definition load_checkpoint {W : Type} (path : string)
  : M W (gmap string pyval) :=
  do print "checkpoint loaded from " path
  then (fun m =>
     match checkpoint_dump m with
     | Some d => (Ok d, m)
     | None => (Raise AttributeError, m)
     end).

(** Saving a sequence of [(checkpoint, path)] pairs, in order. *)
Fixpoint save_all {W : Type} (l : list (gmap string pyval * string))
  : M W pyval :=
  match l with
  | [] => ret PyNone
  | (c, p) :: l' => do save_checkpoint c p then save_all l'
  end.

End Engine.

(** A freshly constructed engine: no [_checkpoint_dump] attribute yet. *)
Definition fresh {W : Type} (w : W) : machine W := mkMachine None [] w.

(** *** Observing the calls made to injected factories *)

Inductive event : Type :=
  | Called (fn : string) (args : kwargs).

(** [traced name f] behaves as [f] on the world and also appends the call
    and its arguments to a log kept next to the world. *)
Definition traced {W : Type} (name : string) (f : callable W)
  : callable (W * list event) :=
  fun args m =>
    let '(r, m') :=
      f args (mkMachine (checkpoint_dump m) (stdout m) (fst (world m))) in
    (r, mkMachine (checkpoint_dump m') (stdout m')
                  (world m', snd (world m) ++ [Called name args])).

(** The machine [m] with the log [tr] next to its world. *)
Definition with_log {W : Type} (m : machine W) (tr : list event)
  : machine (W * list event) :=
  mkMachine (checkpoint_dump m) (stdout m) (world m, tr).

(** ** Reference quantities the code is compared with *)

(** The direct weighted average [sum(value_i * weight_i) / sum(weight_i)]. *)
Fixpoint weighted_sum (l : list (Qc * Z)) : Qc :=
  match l with
  | [] => 0%Qc
  | (v, w) :: l' => (v * float w + weighted_sum l')%Qc
  end.

Fixpoint total_weight (l : list (Qc * Z)) : Z :=
  match l with
  | [] => 0
  | (_, w) :: l' => w + total_weight l'
  end.

Definition weighted_average (l : list (Qc * Z)) : Qc :=
  (weighted_sum l / float (total_weight l))%Qc.

(** The positions, counted from [0], at which [prediction > 0] and
    [target > 0] agree. *)
Definition agrees_at (logits : list Value) (targets : list Qc) (i : nat)
  : bool :=
  Bool.eqb (gt0 (data (nth i logits (mkValue 0%Qc))))
           (gt0 (nth i targets 0%Qc)).

Definition agreeing_positions (logits : list Value) (targets : list Qc)
  : list nat :=
  List.filter (agrees_at logits targets) (seq 0 (length logits)).

(** The fraction of the positions of [logits] that agree. *)
Definition agreement_fraction (logits : list Value) (targets : list Qc) : Qc :=
  (float (Z.of_nat (length (agreeing_positions logits targets)))
   / float (Z.of_nat (length logits)))%Qc.

(** ** Example inputs *)

(** The rational [a / b], for [b > 0]. *)
Definition frac (a b : Z) : Qc := Q2Qc (a # Z.to_pos b).

Definition values (l : list Z) : list Value :=
  map (fun z => mkValue (float z)) l.

(** Factories as in the engine's usage: a model [1], a criterion [2], an
    optimizer that pairs the model it is given with a fixed learning rate,
    a scheduler that is the optimizer it is given. *)
Definition kwarg (name : string) (args : kwargs) : pyval :=
  match List.find (fun p => String.eqb (fst p) name) args with
  | Some p => snd p
  | None => PyNone
  end.

Definition model_fn1 : callable unit := fun _ => ret (PyInt 1).
Definition criterion_fn2 : callable unit := fun _ => ret (PyInt 2).
Definition optimizer_fn_lr : callable unit :=
  fun args => ret (PyTuple [kwarg "model" args; PyFloat (frac 1 10)]).
Definition scheduler_fn_id : callable unit :=
  fun args => ret (kwarg "optimizer" args).

Definition ckpt (z : Z) : gmap string pyval :=
  Engine.pack_checkpoint (PyInt z) PyNone PyNone PyNone [].

(** ** The rest of metric.py *)

Module IMetric.


End IMetric.



(** Feeding a sequence of batches [(logits, targets)] to
    [AccuracyMetric.update], in order; the first exception stops the run. *)
Fixpoint accuracy_update_all (self : AverageMetric.t)
    (batches : list (list Value * list Qc))
  : result unit * AverageMetric.t :=
  match batches with
  | [] => (Ok tt, self)
  | (logits, targets) :: rest =>
    match AccuracyMetric.update self logits targets with
    | (Ok _, self') => accuracy_update_all self' rest
    | (Raise e, self') => (Raise e, self')
    end
  end.

(** The weighted sum of the squared deviations from [c]. *)
Fixpoint weighted_sq_dev (c : Qc) (l : list (Qc * Z)) : Qc :=
  match l with
  | [] => 0%Qc
  | (v, w) :: l' => ((v - c) * (v - c) * float w + weighted_sq_dev c l')%Qc
  end.

(** The number of agreeing positions and of compared positions over a
    sequence of batches. *)
Fixpoint total_agreeing (batches : list (list Value * list Qc)) : Z :=
  match batches with
  | [] => 0
  | (logits, targets) :: rest =>
    Z.of_nat (length (agreeing_positions logits targets)) + total_agreeing rest
  end.

Fixpoint total_positions (batches : list (list Value * list Qc)) : Z :=
  match batches with
  | [] => 0
  | (logits, _) :: rest => Z.of_nat (length logits) + total_positions rest
  end.

(** The weighted sum of the squares. *)
Fixpoint weighted_sum_sq (l : list (Qc * Z)) : Qc :=
  match l with
  | [] => 0%Qc
  | (v, w) :: l' => (v * v * float w + weighted_sum_sq l')%Qc
  end.

(** An example run: value [1] with weight [2], then value [4] with weight [2]. *)
Definition two_updates : list (Qc * Z) := [(float 1, 2); (float 4, 2)].

(** What a batch contributes: its agreement fraction, weighted by its
    length. *)
Definition batch_observation (batch : list Value * list Qc) : Qc * Z :=
  (agreement_fraction (fst batch) (snd batch), Z.of_nat (length (fst batch))).

(** A batch of two equal-length non-empty sequences. *)
Definition well_formed_batch (batch : list Value * list Qc) : Prop :=
  length (fst batch) = length (snd batch) /\ fst batch <> [].

(** Two example batches: three positions of which one agrees, then two
    positions that both agree. *)
Definition two_batches : list (list Value * list Qc) :=
  [(values [1; -1; 1], [float 1; float 1; float (-1)]);
   (values [2; -3], [float 5; float (-1)])].

(** ** More on engine.py *)

(** The names [pack_checkpoint] always writes. *)
Definition fixed_keys : list string :=
  ["model"; "criterion"; "optimizer"; "scheduler"]%string.

(** A call [pack_checkpoint(model=.., criterion=.., optimizer=..,
    scheduler=.., **kw)]: a keyword of [kw] named like one of the four
    parameters does not reach [**kwargs], Python rejects the call with
    [TypeError] (multiple values for the argument). *)
Definition pack_checkpoint_call (model criterion optimizer scheduler : pyval)
    (kw : kwargs) : result (gmap string pyval) :=
  if decide (Forall (fun k => k ∉ fixed_keys) (map fst kw))
  then Ok (Engine.pack_checkpoint model criterion optimizer scheduler kw)
  else Raise TypeError.

(** The name of the factory an event records. *)
Definition event_fn (e : event) : string :=
  match e with Called fn _ => fn end.

(** The four factories in the order [init_components] calls them. *)
Definition factory_order : list string :=
  ["model_fn"; "criterion_fn"; "optimizer_fn"; "scheduler_fn"]%string.

(** The lines [save_checkpoint] and [load_checkpoint] print. *)
Definition saved_line (path : string) : string :=
  String.append "checkpoint saved at " (String.append " " path).

Definition loaded_line (path : string) : string :=
  String.append "checkpoint loaded from " (String.append " " path).

(** A factory that raises. *)
Definition failing_fn : callable unit := fun _ => raise KeyError.

(** ** logger.py: the CSV lines of [LogdirLogger] *)

From stdpp Require sorting.

(** Python compares strings code point by code point; on the bytes of a
    UTF-8 string this is the same order. *)
Definition string_le (a b : string) : Prop := String.leb a b = true.

#[global] Instance string_le_dec : RelDecision string_le.
Proof. intros a b. unfold string_le. apply _. Defined.

#[global] Instance string_le_total : Total string_le.
Proof. intros a b. unfold string_le. apply String.leb_total. Qed.

(** [sorted(d.keys())] *)
Definition sorted_keys {V : Type} (d : gmap string V) : list string :=
  sorting.merge_sort string_le (map fst (map_to_list d)).

(** [s[:-1]]: [s] without its last character. *)
Fixpoint drop_last (s : string) : string :=
  match s with
  | EmptyString => EmptyString
  | String c EmptyString => EmptyString
  | String c s' => String c (drop_last s')
  end.

Definition newline : string := String (Ascii.ascii_of_nat 10) EmptyString.

Module LogdirLogger.

(** An open file: its path, and what was written to it so far, in order. *)
Record file : Type := mkFile {
  f_path : string;
  written : list string
}.

Record t : Type := mk {
  logdir : string;
  loggers : gmap string file
}.


Section Rendering.

(** How a metric value and a step print ([str(x)] and [f"{step}"]), and
    [os.path.join]: the lines are built the same way whatever these are. *)
Context {V : Type} (str : V -> string) (str_int : Z -> string)
        (path_join : string -> string -> string).

(** The line [_make_header] builds. *)
Definition header_line (metrics : gmap string V) : string :=
  let log_line_header := "step,"%string in
  let log_line_header :=
    fold_left (fun acc metric => String.append acc (String.append metric ","))
      (sorted_keys metrics) log_line_header in
  String.append (drop_last log_line_header) newline.


(** The loop of [_log_metrics]: [metrics[metric]] raises on a missing key. *)
Fixpoint append_values (metrics : gmap string V) (keys : list string)
    (acc : string) : result string :=
  match keys with
  | [] => Ok acc
  | metric :: keys' =>
    match metrics !! metric with
    | None => Raise KeyError
    | Some x =>
      append_values metrics keys'
        (String.append acc (String.append (str x) ","))
    end
  end.

(** The line [_log_metrics] builds. *)
Definition row_line (metrics : gmap string V) (step : Z) : result string :=
  let log_line_csv := String.append (str_int step) "," in
  match append_values metrics (sorted_keys metrics) log_line_csv with
  | Raise e => Raise e
  | Ok log_line_csv => Ok (String.append (drop_last log_line_csv) newline)
  end.





End Rendering.

End LogdirLogger.



(** * Properties *)

(** ** Arithmetic of [float] *)

Lemma float_add (a b : Z) : float (a + b) = (float a + float b)%Qc.
Proof.
  unfold float. apply Qc_is_canon. simpl.
  rewrite !Qred_correct. rewrite inject_Z_plus. reflexivity.
Qed.

Lemma float_inj0 (z : Z) : float z = 0%Qc -> z = 0.
Proof.
  unfold float. intros H.
  assert (Hq : (inject_Z z == 0)%Q).
  { apply Q2Qc_eq_iff in H. exact H. }
  unfold Qeq in Hq. simpl in Hq. lia.
Qed.

Lemma float_1 : float 1 = 1%Qc.
Proof. apply Qc_is_canon. reflexivity. Qed.

Lemma float_pos_neq0 (z : Z) : 0 < z -> float z <> 0%Qc.
Proof. intros Hz H. apply float_inj0 in H. lia. Qed.

Lemma float_pred (z : Z) : (float z - 1)%Qc = float (z - 1).
Proof.
  replace z with ((z - 1) + 1) at 1 by lia.
  rewrite float_add, float_1. ring.
Qed.

Lemma truediv_ok (a b : Qc) : b <> 0%Qc -> truediv a b = Ok (a / b)%Qc.
Proof.
  intros H. unfold truediv.
  destruct (Qc_eq_dec b 0%Qc); [contradiction | reflexivity].
Qed.

Lemma truediv_zero (a : Qc) : truediv a 0%Qc = Raise ZeroDivisionError.
Proof.
  unfold truediv. destruct (Qc_eq_dec 0%Qc 0%Qc); [reflexivity | congruence].
Qed.

(** ** The running mean *)

Lemma reset_is_init (self : AverageMetric.t) :
  AverageMetric.reset self
  = AverageMetric.init (AverageMetric.compute_on_call self).
Proof. reflexivity. Qed.

(** The first update of a fresh metric. *)
Lemma update_first (b : bool) (v : Qc) (w : Z) :
  AverageMetric.update (AverageMetric.init b) v w
  = (Ok tt, AverageMetric.mk b 1 v (Num v) v 0%Qc (Num 0%Qc) w).
Proof.
  unfold AverageMetric.update. cbn. rewrite Qcplus_0_l. reflexivity.
Qed.

(** One update past the first: the mean stays the weighted sum [S] over the
    cumulative weight. *)
Lemma update_step (self : AverageMetric.t) (S : Qc) (v : Qc) (w : Z) :
  1 <= AverageMetric.n self ->
  0 < AverageMetric.num_samples self ->
  AverageMetric.mean_old self
  = (S / float (AverageMetric.num_samples self))%Qc ->
  0 < w ->
  exists self',
    AverageMetric.update self v w = (Ok tt, self')
    /\ AverageMetric.n self' = AverageMetric.n self + 1
    /\ AverageMetric.num_samples self' = AverageMetric.num_samples self + w
    /\ AverageMetric.mean_old self'
       = ((S + v * float w) / float (AverageMetric.num_samples self + w))%Qc
    /\ AverageMetric.mean self' = Num (AverageMetric.mean_old self').
Proof.
  intros Hn HW Hm Hw.
  unfold AverageMetric.update.
  cbn [AverageMetric.n AverageMetric.set_n AverageMetric.set_value
       AverageMetric.set_num_samples AverageMetric.num_samples
       AverageMetric.mean_old AverageMetric.m_s].
  destruct (Z.eqb_spec (AverageMetric.n self + 1) 1) as [E | _]; [lia |].
  set (W' := AverageMetric.num_samples self + w) in *.
  assert (HW' : float W' <> 0%Qc) by (apply float_pos_neq0; lia).
  rewrite (truediv_ok _ _ HW').
  cbn.
  assert (HW1 : (float W' - 1)%Qc <> 0%Qc).
  { rewrite float_pred. apply float_pos_neq0. lia. }
  rewrite (truediv_ok _ _ HW1).
  eexists. split; [reflexivity |]. cbn.
  repeat split.
  rewrite Hm. subst W'. rewrite float_add.
  assert (HW0 : float (AverageMetric.num_samples self) <> 0%Qc)
    by (apply float_pos_neq0; lia).
  rewrite float_add in HW'.
  field. split; assumption.
Qed.

(** Any number of further updates, from a state that has seen at least one. *)
Lemma update_all_from (l : list (Qc * Z)) :
  forall (self : AverageMetric.t) (S : Qc),
    1 <= AverageMetric.n self ->
    0 < AverageMetric.num_samples self ->
    AverageMetric.mean_old self
    = (S / float (AverageMetric.num_samples self))%Qc ->
    AverageMetric.mean self = Num (AverageMetric.mean_old self) ->
    Forall (fun p => 0 < snd p) l ->
    exists self',
      AverageMetric.update_all self l = (Ok tt, self')
      /\ AverageMetric.num_samples self'
         = AverageMetric.num_samples self + total_weight l
      /\ AverageMetric.mean self'
         = Num ((S + weighted_sum l)
                / float (AverageMetric.num_samples self + total_weight l))%Qc.
Proof.
  induction l as [| [v w] l IH]; intros self S Hn HW Hm Hmean Hpos.
  - exists self. cbn. rewrite Z.add_0_r, Qcplus_0_r.
    repeat split. rewrite Hmean, Hm. reflexivity.
  - inversion Hpos as [| ? ? Hw Hpos']; subst. cbn in Hw.
    destruct (update_step self S v w Hn HW Hm Hw)
      as (self1 & Hup & Hn1 & HW1 & Hm1 & Hmean1).
    cbn [AverageMetric.update_all]. rewrite Hup.
    destruct (IH self1 (S + v * float w)%Qc) as (self' & Hall & HW' & Hmean');
      try assumption; try lia.
    + rewrite HW1. exact Hm1.
    + exists self'. split; [exact Hall |].
      cbn [total_weight weighted_sum].
      rewrite HW', Hmean', HW1, Z.add_assoc, Qcplus_assoc. split; reflexivity.
Qed.

(** A non-empty run from a fresh metric. *)
Lemma update_all_fresh (b : bool) (l : list (Qc * Z)) :
  l <> [] ->
  Forall (fun p => 0 < snd p) l ->
  exists self',
    AverageMetric.update_all (AverageMetric.init b) l = (Ok tt, self')
    /\ AverageMetric.mean self' = Num (weighted_average l)
    /\ AverageMetric.num_samples self' = total_weight l.
Proof.
  destruct l as [| [v w] l]; [congruence |]. intros _ Hpos.
  inversion Hpos as [| ? ? Hw Hpos']; subst. cbn in Hw.
  cbn [AverageMetric.update_all]. rewrite update_first.
  destruct (update_all_from l (AverageMetric.mk b 1 v (Num v) v 0%Qc (Num 0%Qc) w)
              (v * float w)%Qc) as (self' & Hall & HW' & Hmean');
    cbn; try assumption; try lia; try reflexivity.
  - field. apply float_pos_neq0. exact Hw.
  - exists self'. cbn in HW', Hmean'. repeat split; assumption.
Qed.

(** C1.  For every non-empty sequence of [(value, weight)] pairs with
    positive weights, updating a freshly constructed or a reset
    [AverageMetric] with each pair in order succeeds and leaves [mean] equal
    to the direct weighted average [sum(value_i * weight_i) / sum(weight_i)]
    (exactly, over the rationals) and [num_samples] equal to the sum of the
    weights; in particular two updates [(a, w)], [(b, w)] leave
    [mean = (a + b) / 2] and [num_samples = 2 * w]. *)
Theorem running_mean_is_weighted_average
    (b : bool) (s : AverageMetric.t) (l : list (Qc * Z)) :
  l <> [] ->
  Forall (fun p => 0 < snd p) l ->
  forall start : AverageMetric.t,
    start = AverageMetric.init b \/ start = AverageMetric.reset s ->
    exists self',
      AverageMetric.update_all start l = (Ok tt, self')
      /\ AverageMetric.mean self' = Num (weighted_average l)
      /\ AverageMetric.num_samples self' = total_weight l
      /\ (forall (x y : Qc) (w : Z),
           l = [(x, w); (y, w)] ->
           AverageMetric.mean self' = Num ((x + y) / float 2)%Qc
           /\ AverageMetric.num_samples self' = 2 * w).
Proof.
  intros Hne Hpos start Hstart.
  assert (Hinit : exists b', start = AverageMetric.init b').
  { destruct Hstart as [-> | ->]; eauto using reset_is_init. }
  destruct Hinit as [b' ->].
  destruct (update_all_fresh b' l Hne Hpos) as (self' & Hall & Hmean & Hnum).
  exists self'. repeat split; try assumption.
  - rewrite Hmean. f_equal. subst l. unfold weighted_average. cbn.
    inversion Hpos as [| ? ? Hw _]; subst. cbn in Hw.
    pose proof (float_pos_neq0 w Hw) as Hfw.
    rewrite Z.add_0_r, float_add.
    replace (float 2) with (1 + 1)%Qc by (apply Qc_is_canon; reflexivity).
    field. split; [discriminate |].
    intros H. apply Hfw.
    replace (float w + float w)%Qc with (float w * (1 + 1))%Qc in H by ring.
    apply Qcmult_integral in H. destruct H as [H | H]; [exact H | discriminate].
  - rewrite Hnum. subst l. cbn. lia.
Qed.

Lemma running_mean_is_weighted_average_witness :
  [(float 1, 2); (float 4, 2)] <> []
  /\ Forall (fun p : Qc * Z => 0 < snd p) [(float 1, 2); (float 4, 2)]
  /\ (AverageMetric.init true = AverageMetric.init true
      \/ AverageMetric.init true = AverageMetric.reset (AverageMetric.init true))
  /\ exists self',
      AverageMetric.update_all (AverageMetric.init true)
        [(float 1, 2); (float 4, 2)] = (Ok tt, self')
      /\ AverageMetric.mean self'
         = Num (weighted_average [(float 1, 2); (float 4, 2)])
      /\ AverageMetric.num_samples self'
         = total_weight [(float 1, 2); (float 4, 2)]
      /\ (forall (x y : Qc) (w : Z),
           [(float 1, 2); (float 4, 2)] = [(x, w); (y, w)] ->
           AverageMetric.mean self' = Num ((x + y) / float 2)%Qc
           /\ AverageMetric.num_samples self' = 2 * w).
Proof.
  split; [discriminate |].
  split; [repeat constructor; cbn; lia |].
  split; [left; reflexivity |].
  apply (running_mean_is_weighted_average true (AverageMetric.init true)
           [(float 1, 2); (float 4, 2)]).
  - discriminate.
  - repeat constructor; cbn; lia.
  - left; reflexivity.
Defined.

(** C2.  For every value [v] and weight [w], a single [update(v, w)] on a
    freshly constructed or a freshly reset [AverageMetric] succeeds and
    leaves [mean = v], [std = 0] and [num_samples = w]. *)
Theorem single_update_state (b : bool) (s : AverageMetric.t) (v : Qc) (w : Z) :
  (exists self',
      AverageMetric.update (AverageMetric.init b) v w = (Ok tt, self')
      /\ AverageMetric.mean self' = Num v
      /\ AverageMetric.std self' = Num 0%Qc
      /\ AverageMetric.num_samples self' = w)
  /\ (exists self',
      AverageMetric.update (AverageMetric.reset s) v w = (Ok tt, self')
      /\ AverageMetric.mean self' = Num v
      /\ AverageMetric.std self' = Num 0%Qc
      /\ AverageMetric.num_samples self' = w).
Proof.
  rewrite reset_is_init, !update_first.
  split; eexists; (split; [reflexivity |]); cbn; repeat split.
Qed.

(** ** The accuracy metric *)

Lemma sum_bool_from (l : list bool) (acc : Z) :
  fold_left (fun a (b : bool) => a + (if b then 1 else 0)) l acc
  = acc + sum_bool l.
Proof.
  unfold sum_bool. revert acc.
  induction l as [| b l IH]; intros acc; cbn; [lia |].
  rewrite (IH (acc + _)), (IH (0 + _)). lia.
Qed.

Lemma sum_bool_cons (b : bool) (l : list bool) :
  sum_bool (b :: l) = (if b then 1 else 0) + sum_bool l.
Proof. unfold sum_bool at 1. cbn. apply sum_bool_from. Qed.

Lemma length_filter_map {A B : Type} (f : B -> bool) (g : A -> B) (l : list A) :
  length (List.filter f (map g l))
  = length (List.filter (fun x => f (g x)) l).
Proof.
  induction l as [| a l IH]; cbn; [reflexivity |].
  destruct (f (g a)); cbn; rewrite IH; reflexivity.
Qed.

Lemma zip_length {A B : Type} (l1 : list A) (l2 : list B) :
  length (zip l1 l2) = Nat.min (length l1) (length l2).
Proof.
  revert l2. induction l1 as [| a l1 IH]; intros [| b l2]; cbn; auto.
Qed.

Lemma zip_firstn {A B : Type} (l1 : list A) (l2 : list B) :
  zip l1 l2
  = zip (firstn (Nat.min (length l2) (length l1)) l1)
        (firstn (Nat.min (length l2) (length l1)) l2).
Proof.
  revert l2. induction l1 as [| a l1 IH]; intros [| b l2]; cbn;
    try reflexivity.
  f_equal. apply IH.
Qed.

(** The number of [True] in the list the code builds is the number of
    agreeing positions. *)
Lemma sum_accuracy_positions (logits : list Value) :
  forall targets : list Qc,
    length logits = length targets ->
    sum_bool (map (fun '(yi, li) => Bool.eqb (gt0 yi) (gt0 (data li)))
                  (zip targets logits))
    = Z.of_nat (length (agreeing_positions logits targets)).
Proof.
  induction logits as [| li logits IH]; intros [| yi targets] Hlen;
    try discriminate; [reflexivity |].
  cbn in Hlen. injection Hlen as Hlen.
  cbn [zip map]. rewrite sum_bool_cons, (IH targets Hlen).
  unfold agreeing_positions. cbn [length seq].
  rewrite <- seq_shift. cbn [List.filter].
  assert (Htl : length (List.filter (agrees_at (li :: logits) (yi :: targets))
                          (map Datatypes.S (seq 0 (length logits))))
                = length (List.filter (agrees_at logits targets)
                            (seq 0 (length logits)))).
  { rewrite length_filter_map. reflexivity. }
  assert (Hhd : agrees_at (li :: logits) (yi :: targets) 0
                = Bool.eqb (gt0 yi) (gt0 (data li))).
  { unfold agrees_at. cbn [nth data].
    destruct (gt0 yi), (gt0 (data li)); reflexivity. }
  rewrite Hhd.
  destruct (Bool.eqb (gt0 yi) (gt0 (data li))); cbn [length];
    rewrite Htl; lia.
Qed.

(** On equal-length non-empty sequences the code forwards the agreement
    fraction and the length. *)
Lemma accuracy_update_equal_length
    (self : AverageMetric.t) (logits : list Value) (targets : list Qc) :
  length logits = length targets ->
  logits <> [] ->
  AccuracyMetric.update self logits targets
  = AverageMetric.update self (agreement_fraction logits targets)
      (Z.of_nat (length logits)).
Proof.
  intros Hlen Hne. unfold AccuracyMetric.update.
  rewrite sum_accuracy_positions by exact Hlen.
  rewrite length_map, zip_length, <- Hlen, Nat.min_id.
  rewrite truediv_ok; [reflexivity |].
  apply float_pos_neq0. destruct logits; [congruence | cbn; lia].
Qed.

Lemma accuracy_update_empty
    (self : AverageMetric.t) (logits : list Value) (targets : list Qc) :
  Nat.min (length logits) (length targets) = 0%nat ->
  AccuracyMetric.update self logits targets = (Raise ZeroDivisionError, self).
Proof.
  intros Hk. unfold AccuracyMetric.update.
  assert (Hz : zip targets logits = []).
  { destruct targets, logits; cbn in *; try reflexivity; discriminate. }
  rewrite Hz. cbn.
  replace (float 0) with 0%Qc by (apply Qc_is_canon; reflexivity).
  rewrite truediv_zero. reflexivity.
Qed.

(** C8.  For every pair of equal-length non-empty sequences,
    [AccuracyMetric.update(logits, targets)] takes as the batch value the
    fraction of positions where [prediction > 0] agrees with [target > 0] and
    forwards [(value, length)] to [AverageMetric.update]; as the first update
    after construction or reset it succeeds and leaves [mean] equal to that
    fraction; for [update([1,-1,1], [1,1,-1])] the fraction is [1/3]. *)
Theorem accuracy_update_agreement_fraction
    (b : bool) (s self : AverageMetric.t)
    (logits : list Value) (targets : list Qc) :
  length logits = length targets ->
  logits <> [] ->
  AccuracyMetric.update self logits targets
  = AverageMetric.update self (agreement_fraction logits targets)
      (Z.of_nat (length logits))
  /\ (forall start : AverageMetric.t,
        start = AverageMetric.init b \/ start = AverageMetric.reset s ->
        exists self',
          AccuracyMetric.update start logits targets = (Ok tt, self')
          /\ AverageMetric.value self' = agreement_fraction logits targets
          /\ AverageMetric.mean self' = Num (agreement_fraction logits targets)
          /\ AverageMetric.num_samples self' = Z.of_nat (length logits))
  /\ (logits = values [1; -1; 1] ->
      targets = [float 1; float 1; float (-1)] ->
      agreement_fraction logits targets = frac 1 3).
Proof.
  intros Hlen Hne. split; [| split].
  - apply accuracy_update_equal_length; assumption.
  - intros start Hstart.
    rewrite accuracy_update_equal_length by assumption.
    assert (Hinit : exists b', start = AverageMetric.init b').
    { destruct Hstart as [-> | ->]; eauto using reset_is_init. }
    destruct Hinit as [b' ->]. rewrite update_first.
    eexists. split; [reflexivity |]. cbn. repeat split.
  - intros -> ->. apply Qc_is_canon. reflexivity.
Qed.

Lemma accuracy_update_agreement_fraction_witness :
  length (values [1; -1; 1]) = length [float 1; float 1; float (-1)]
  /\ values [1; -1; 1] <> []
  /\ exists self',
       AccuracyMetric.update (AverageMetric.init true)
         (values [1; -1; 1]) [float 1; float 1; float (-1)] = (Ok tt, self')
       /\ AverageMetric.mean self' = Num (frac 1 3)
       /\ AverageMetric.num_samples self' = 3.
Proof.
  split; [reflexivity |]. split; [discriminate |].
  destruct (accuracy_update_agreement_fraction true (AverageMetric.init true)
              (AverageMetric.init true)
              (values [1; -1; 1]) [float 1; float 1; float (-1)]
              eq_refl ltac:(discriminate))
    as (_ & Hfirst & Hex).
  destruct (Hfirst (AverageMetric.init true) (or_introl eq_refl))
    as (self' & Hup & _ & Hmean & Hnum).
  exists self'. rewrite <- (Hex eq_refl eq_refl).
  split; [exact Hup |]. split; [exact Hmean | exact Hnum].
Defined.

(** C7 as stated fails: on sequences of lengths 3 and 2 the update does not
    fail, it succeeds. *)
Lemma accuracy_update_length_mismatch_counterexample :
  length (values [1; -1; 1]) <> length [float 1; float 1]
  /\ fst (AccuracyMetric.update (AverageMetric.init true)
            (values [1; -1; 1]) [float 1; float 1]) = Ok tt.
Proof. split; [discriminate | reflexivity]. Qed.

(** An update succeeds on a metric that was never updated, and on one whose
    cumulative weight after the update is neither [0] nor [1]. *)
Lemma update_ok_when (self : AverageMetric.t) (v : Qc) (w : Z) :
  AverageMetric.n self = 0
  \/ (AverageMetric.num_samples self + w <> 0
      /\ AverageMetric.num_samples self + w <> 1) ->
  fst (AverageMetric.update self v w) = Ok tt.
Proof.
  intros Hok. unfold AverageMetric.update.
  cbn [AverageMetric.n AverageMetric.set_n AverageMetric.set_value
       AverageMetric.set_num_samples AverageMetric.num_samples
       AverageMetric.mean_old AverageMetric.m_s].
  destruct (Z.eqb_spec (AverageMetric.n self + 1) 1) as [E | E];
    [reflexivity |].
  destruct Hok as [Hn | [H0 H1]]; [lia |].
  rewrite truediv_ok.
  - cbn [AverageMetric.n AverageMetric.set_mean AverageMetric.set_m_s
         AverageMetric.set_mean_old AverageMetric.num_samples
         AverageMetric.mean_old AverageMetric.m_s
         AverageMetric.set_n AverageMetric.set_value
         AverageMetric.set_num_samples].
    rewrite truediv_ok; [reflexivity |].
    rewrite float_pred. intros H. apply float_inj0 in H. lia.
  - intros H. apply float_inj0 in H. lia.
Qed.

(** C7, amended.  For every pair of sequences of differing lengths,
    [AccuracyMetric.update] raises no length-mismatch error: it drops the
    elements of the longer sequence beyond the length [k] of the shorter one
    and behaves exactly as on the two sequences cut to [k], forwarding the
    agreement fraction of the first [k] positions and [k] to
    [AverageMetric.update].  When [k = 0] it fails with a division by zero.
    When [k <> 0] it succeeds on every metric that was never updated or has
    a positive cumulative [num_samples]; on a freshly constructed or reset
    one it leaves [mean] equal to that fraction and [num_samples = k]. *)
Theorem accuracy_update_truncates
    (b : bool) (s self : AverageMetric.t)
    (logits : list Value) (targets : list Qc) :
  length logits <> length targets ->
  let k := Nat.min (length logits) (length targets) in
  AccuracyMetric.update self logits targets
  = AccuracyMetric.update self (firstn k logits) (firstn k targets)
  /\ (k <> 0%nat ->
      AccuracyMetric.update self logits targets
      = AverageMetric.update self
          (agreement_fraction (firstn k logits) (firstn k targets))
          (Z.of_nat k))
  /\ (k = 0%nat ->
      AccuracyMetric.update self logits targets
      = (Raise ZeroDivisionError, self))
  /\ (k <> 0%nat ->
      AverageMetric.n self = 0 \/ 0 < AverageMetric.num_samples self ->
      fst (AccuracyMetric.update self logits targets) = Ok tt)
  /\ (k <> 0%nat ->
      forall start : AverageMetric.t,
        start = AverageMetric.init b \/ start = AverageMetric.reset s ->
        exists self',
          AccuracyMetric.update start logits targets = (Ok tt, self')
          /\ AverageMetric.mean self'
             = Num (agreement_fraction (firstn k logits) (firstn k targets))
          /\ AverageMetric.num_samples self' = Z.of_nat k).
Proof.
  intros _ k.
  assert (Hcut : forall st,
             AccuracyMetric.update st logits targets
             = AccuracyMetric.update st (firstn k logits) (firstn k targets)).
  { intros st. unfold AccuracyMetric.update.
    rewrite (zip_firstn targets logits). reflexivity. }
  assert (Hl : length (firstn k logits) = k)
    by (rewrite length_firstn; subst k; lia).
  assert (Ht : length (firstn k targets) = k)
    by (rewrite length_firstn; subst k; lia).
  assert (Hfwd : k <> 0%nat ->
                 forall st,
                   AccuracyMetric.update st logits targets
                   = AverageMetric.update st
                       (agreement_fraction (firstn k logits) (firstn k targets))
                       (Z.of_nat k)).
  { intros Hk st. rewrite Hcut, accuracy_update_equal_length.
    - rewrite Hl. reflexivity.
    - congruence.
    - intros E. rewrite E in Hl. cbn in Hl. congruence. }
  split; [apply Hcut |]. split; [intros Hk; apply Hfwd; exact Hk |].
  split; [intros Hk; apply accuracy_update_empty; exact Hk |]. split.
  - intros Hk Hstate. rewrite (Hfwd Hk). apply update_ok_when.
    destruct Hstate as [Hn | HW]; [left; exact Hn | right; lia].
  - intros Hk start Hstart. rewrite (Hfwd Hk).
    assert (Hinit : exists b', start = AverageMetric.init b').
    { destruct Hstart as [-> | ->]; eauto using reset_is_init. }
    destruct Hinit as [b' ->]. rewrite update_first.
    eexists. split; [reflexivity |]. cbn. split; reflexivity.
Qed.

Lemma accuracy_update_truncates_witness :
  length (values [1; -1; 1]) <> length [float 1; float 1]
  /\ AccuracyMetric.update (AverageMetric.init true)
       (values [1; -1; 1]) [float 1; float 1]
     = AccuracyMetric.update (AverageMetric.init true)
         (values [1; -1]) [float 1; float 1]
  /\ fst (AccuracyMetric.update (AverageMetric.init true)
            (values [1; -1; 1]) [float 1; float 1]) = Ok tt.
Proof.
  split; [discriminate |].
  destruct (accuracy_update_truncates true (AverageMetric.init true)
              (AverageMetric.init true)
              (values [1; -1; 1]) [float 1; float 1]
              ltac:(discriminate))
    as (Hcut & _ & _ & Hok & _).
  split; [exact Hcut |].
  apply Hok; [discriminate | left; reflexivity].
Defined.

(** C10.  [AccuracyMetric.update] with an empty [logits] sequence, whatever
    the targets (so also with two empty sequences), fails with a division by
    zero: the agreement count is divided by the number of compared pairs,
    which is zero, and nothing guards it.  The metric is left as it was. *)
Theorem accuracy_update_empty_divides_by_zero
    (self : AverageMetric.t) (targets : list Qc) :
  AccuracyMetric.update self [] targets = (Raise ZeroDivisionError, self)
  /\ AccuracyMetric.update self [] [] = (Raise ZeroDivisionError, self).
Proof.
  split; apply accuracy_update_empty; reflexivity.
Qed.

(** ** The engine: component factories *)

(** C6.  With four supplied factories that do not raise, [init_components]
    calls them exactly once each, in the order [model_fn()],
    [criterion_fn()], [optimizer_fn(model=<what model_fn returned>)],
    [scheduler_fn(optimizer=<what optimizer_fn returned>)], each on the state
    the previous one left, and returns the four components: the result and
    final state are those of the four calls chained, and the log of the
    traced factories holds exactly these four calls in this order. *)
Theorem init_components_order {W : Type}
    (model_fn criterion_fn optimizer_fn scheduler_fn : callable W)
    (m0 m1 m2 m3 m4 : machine W) (model criterion optimizer scheduler : pyval) :
  model_fn [] m0 = (Ok model, m1) ->
  criterion_fn [] m1 = (Ok criterion, m2) ->
  optimizer_fn [("model"%string, model)] m2 = (Ok optimizer, m3) ->
  scheduler_fn [("optimizer"%string, optimizer)] m3 = (Ok scheduler, m4) ->
  Engine.init_components (Some model_fn) (Some criterion_fn)
    (Some optimizer_fn) (Some scheduler_fn) m0
  = (Ok (PyTuple [model; criterion; optimizer; scheduler]), m4)
  /\ Engine.init_components
       (Some (traced "model_fn" model_fn))
       (Some (traced "criterion_fn" criterion_fn))
       (Some (traced "optimizer_fn" optimizer_fn))
       (Some (traced "scheduler_fn" scheduler_fn))
       (with_log m0 [])
     = (Ok (PyTuple [model; criterion; optimizer; scheduler]),
        with_log m4
          [Called "model_fn" [];
           Called "criterion_fn" [];
           Called "optimizer_fn" [("model"%string, model)];
           Called "scheduler_fn" [("optimizer"%string, optimizer)]]).
Proof.
  intros Hm Hc Ho Hs. split.
  - unfold Engine.init_components, bind, call.
    rewrite Hm, Hc, Ho, Hs. reflexivity.
  - destruct m0 as [d0 o0 w0], m1 as [d1 o1 w1], m2 as [d2 o2 w2],
      m3 as [d3 o3 w3], m4 as [d4 o4 w4].
    unfold Engine.init_components, bind, call, traced, with_log. cbn.
    rewrite Hm. cbn. rewrite Hc. cbn. rewrite Ho. cbn. rewrite Hs. cbn.
    reflexivity.
Qed.

Lemma init_components_order_witness :
  model_fn1 [] (fresh tt) = (Ok (PyInt 1), fresh tt)
  /\ criterion_fn2 [] (fresh tt) = (Ok (PyInt 2), fresh tt)
  /\ optimizer_fn_lr [("model"%string, PyInt 1)] (fresh tt)
     = (Ok (PyTuple [PyInt 1; PyFloat (frac 1 10)]), fresh tt)
  /\ scheduler_fn_id
       [("optimizer"%string, PyTuple [PyInt 1; PyFloat (frac 1 10)])] (fresh tt)
     = (Ok (PyTuple [PyInt 1; PyFloat (frac 1 10)]), fresh tt)
  /\ Engine.init_components
       (Some (traced "model_fn" model_fn1))
       (Some (traced "criterion_fn" criterion_fn2))
       (Some (traced "optimizer_fn" optimizer_fn_lr))
       (Some (traced "scheduler_fn" scheduler_fn_id))
       (with_log (fresh tt) [])
     = (Ok (PyTuple [PyInt 1; PyInt 2;
                     PyTuple [PyInt 1; PyFloat (frac 1 10)];
                     PyTuple [PyInt 1; PyFloat (frac 1 10)]]),
        with_log (fresh tt)
          [Called "model_fn" [];
           Called "criterion_fn" [];
           Called "optimizer_fn" [("model"%string, PyInt 1)];
           Called "scheduler_fn"
             [("optimizer"%string, PyTuple [PyInt 1; PyFloat (frac 1 10)])]]).
Proof.
  repeat (split; [reflexivity |]).
  exact (proj2 (init_components_order model_fn1 criterion_fn2 optimizer_fn_lr
                  scheduler_fn_id (fresh tt) (fresh tt) (fresh tt) (fresh tt)
                  (fresh tt) (PyInt 1) (PyInt 2)
                  (PyTuple [PyInt 1; PyFloat (frac 1 10)])
                  (PyTuple [PyInt 1; PyFloat (frac 1 10)])
                  eq_refl eq_refl eq_refl eq_refl)).
Defined.

(** Calling a factory either raises or returns; what follows depends on it. *)
Lemma call_cases {W : Type} (f : option (callable W)) (args : kwargs)
    (m : machine W) :
  (exists v m', call f args m = (Ok v, m'))
  \/ (exists e m', call f args m = (Raise e, m')).
Proof.
  destruct (call f args m) as [[v | e] m']; [left | right]; eauto.
Qed.

(** C5 as stated fails: with [model_fn] unset and the other three factories
    supplied, [init_components] fails with [TypeError]; the log of the traced
    [optimizer_fn] is empty, it was not invoked. *)
Lemma init_components_unset_counterexample :
  Engine.init_components None
    (Some (traced "criterion_fn" criterion_fn2))
    (Some (traced "optimizer_fn" optimizer_fn_lr))
    (Some (traced "scheduler_fn" scheduler_fn_id))
    (with_log (fresh tt) [])
  = (Raise TypeError, with_log (fresh tt) []).
Proof. reflexivity. Qed.

(** C5, amended.  A call to [init_components] in which some factory is left
    unset returns no bundle, it fails; when the factories called before the
    first unset one all return, the failure is the [TypeError] of calling the
    unset factory, raised in the state those factories left and before any
    later factory is invoked (with [model_fn] unset: at the first statement,
    no factory being invoked).  Null is passed through as a value only: when
    a supplied [model_fn] returns [None], the model slot is [None] and
    [optimizer_fn] is invoked with [model = None]; likewise [scheduler_fn]
    gets whatever [optimizer_fn] returned. *)
Theorem init_components_unset_factory {W : Type}
    (model_fn criterion_fn optimizer_fn scheduler_fn : option (callable W))
    (m : machine W) :
  model_fn = None \/ criterion_fn = None
  \/ optimizer_fn = None \/ scheduler_fn = None ->
  (exists e m',
      Engine.init_components model_fn criterion_fn optimizer_fn scheduler_fn m
      = (Raise e, m'))
  /\ (model_fn = None ->
      Engine.init_components model_fn criterion_fn optimizer_fn scheduler_fn m
      = (Raise TypeError, m))
  /\ (forall (model : pyval) (m1 : machine W),
        call model_fn [] m = (Ok model, m1) ->
        criterion_fn = None ->
        Engine.init_components model_fn criterion_fn optimizer_fn
          scheduler_fn m
        = (Raise TypeError, m1))
  /\ (forall (model criterion : pyval) (m1 m2 : machine W),
        call model_fn [] m = (Ok model, m1) ->
        call criterion_fn [] m1 = (Ok criterion, m2) ->
        optimizer_fn = None ->
        Engine.init_components model_fn criterion_fn optimizer_fn
          scheduler_fn m
        = (Raise TypeError, m2))
  /\ (forall (model criterion optimizer : pyval) (m1 m2 m3 : machine W),
        call model_fn [] m = (Ok model, m1) ->
        call criterion_fn [] m1 = (Ok criterion, m2) ->
        call optimizer_fn [("model"%string, model)] m2 = (Ok optimizer, m3) ->
        scheduler_fn = None ->
        Engine.init_components model_fn criterion_fn optimizer_fn
          scheduler_fn m
        = (Raise TypeError, m3))
  /\ (forall (f1 f2 f3 f4 : callable W)
             (criterion optimizer scheduler : pyval)
             (m1 m2 m3 m4 : machine W),
        f1 [] m = (Ok PyNone, m1) ->
        f2 [] m1 = (Ok criterion, m2) ->
        f3 [("model"%string, PyNone)] m2 = (Ok optimizer, m3) ->
        f4 [("optimizer"%string, optimizer)] m3 = (Ok scheduler, m4) ->
        Engine.init_components (Some f1) (Some f2) (Some f3) (Some f4) m
        = (Ok (PyTuple [PyNone; criterion; optimizer; scheduler]), m4)).
Proof.
  intros Hunset. split; [| split; [| split; [| split; [| split]]]].
  - unfold Engine.init_components, bind.
    destruct (call_cases model_fn [] m) as [(v1 & m1 & H1) | (e & m' & H1)];
      rewrite H1; [| eauto].
    destruct (call_cases criterion_fn [] m1) as [(v2 & m2 & H2) | (e & m' & H2)];
      rewrite H2; [| eauto].
    destruct (call_cases optimizer_fn [("model"%string, v1)] m2)
      as [(v3 & m3 & H3) | (e & m' & H3)]; rewrite H3; [| eauto].
    destruct (call_cases scheduler_fn [("optimizer"%string, v3)] m3)
      as [(v4 & m4 & H4) | (e & m' & H4)]; rewrite H4; [| eauto].
    exfalso.
    destruct Hunset as [-> | [-> | [-> | ->]]]; discriminate.
  - intros ->. reflexivity.
  - intros model m1 H1 ->.
    unfold Engine.init_components, bind. rewrite H1. reflexivity.
  - intros model criterion m1 m2 H1 H2 ->.
    unfold Engine.init_components, bind. rewrite H1, H2. reflexivity.
  - intros model criterion optimizer m1 m2 m3 H1 H2 H3 ->.
    unfold Engine.init_components, bind. rewrite H1, H2, H3. reflexivity.
  - intros f1 f2 f3 f4 criterion optimizer scheduler m1 m2 m3 m4 H1 H2 H3 H4.
    unfold Engine.init_components, bind, call.
    rewrite H1, H2, H3, H4. reflexivity.
Qed.

Lemma init_components_unset_factory_witness :
  (Some model_fn1 = None \/ Some criterion_fn2 = None
   \/ @None (callable unit) = None \/ Some scheduler_fn_id = None)
  /\ call (Some model_fn1) [] (fresh tt) = (Ok (PyInt 1), fresh tt)
  /\ call (Some criterion_fn2) [] (fresh tt) = (Ok (PyInt 2), fresh tt)
  /\ Engine.init_components (Some model_fn1) (Some criterion_fn2) None
       (Some scheduler_fn_id) (fresh tt)
     = (Raise TypeError, fresh tt).
Proof.
  split; [right; right; left; reflexivity |].
  split; [reflexivity |]. split; [reflexivity |].
  destruct (init_components_unset_factory (Some model_fn1)
              (Some criterion_fn2) None (Some scheduler_fn_id) (fresh tt)
              (or_intror (or_intror (or_introl eq_refl))))
    as (_ & _ & _ & Hopt & _).
  exact (Hopt (PyInt 1) (PyInt 2) (fresh tt) (fresh tt) eq_refl eq_refl
           eq_refl).
Defined.

(** ** The engine: checkpoints *)

Lemma save_checkpoint_run {W : Type} (c : gmap string pyval) (p : string)
    (m : machine W) :
  Engine.save_checkpoint c p m
  = (Ok PyNone,
     mkMachine (Some c)
       (stdout m ++ [String.append "checkpoint saved at " (String.append " " p)])
       (world m)).
Proof. reflexivity. Qed.

Lemma load_checkpoint_run {W : Type} (p : string) (m : machine W) :
  fst (Engine.load_checkpoint p m)
  = match checkpoint_dump m with
    | Some d => Ok d
    | None => Raise AttributeError
    end.
Proof.
  unfold Engine.load_checkpoint, bind, print. cbn.
  destruct (checkpoint_dump m); reflexivity.
Qed.

(** A run of saves keeps the checkpoint of the last one only, whatever the
    paths. *)
Lemma save_all_run {W : Type} (l : list (gmap string pyval * string)) :
  forall m : machine W,
    exists m',
      Engine.save_all l m = (Ok PyNone, m')
      /\ checkpoint_dump m'
         = match last (map fst l) with
           | Some c => Some c
           | None => checkpoint_dump m
           end.
Proof.
  induction l as [| [c p] l IH]; intros m.
  - exists m. split; reflexivity.
  - cbn [Engine.save_all]. unfold bind at 1. rewrite save_checkpoint_run.
    destruct (IH (mkMachine (Some c)
                    (stdout m ++ [String.append "checkpoint saved at "
                                    (String.append " " p)])
                    (world m))) as (m' & Hrun & Hd).
    exists m'. split; [exact Hrun |]. rewrite Hd. cbn [map fst checkpoint_dump].
    rewrite last_cons. destruct (last (map fst l)); reflexivity.
Qed.

Lemma ckpt_neq : ckpt 2 <> ckpt 1.
Proof.
  intros H. apply (f_equal (fun d => d !! "model"%string)) in H.
  vm_compute in H. discriminate.
Qed.

(** C3 as stated fails: after a save under ["a"], loading the never-saved
    path ["b"] does not fail, it returns the checkpoint saved under ["a"]. *)
Lemma load_unsaved_path_counterexample :
  "b"%string <> "a"%string
  /\ fst ((do Engine.save_checkpoint (ckpt 1) "a"
           then Engine.load_checkpoint "b") (fresh tt))
     = Ok (ckpt 1).
Proof. split; [discriminate | reflexivity]. Qed.

(** C3, amended.  For every path [p] that was never passed to
    [save_checkpoint], [load_checkpoint(p)] on a reference engine fails (with
    [AttributeError], on the attribute that was never set) when no checkpoint
    was saved on that engine at all; when checkpoints were saved under other
    paths it does not fail: it returns the checkpoint of the latest save. *)
Theorem load_checkpoint_unsaved_path {W : Type} (w : W)
    (saves : list (gmap string pyval * string)) (p : string) :
  p ∉ map snd saves ->
  fst ((do Engine.save_all saves then Engine.load_checkpoint p) (fresh w))
  = match last (map fst saves) with
    | Some c => Ok c
    | None => Raise AttributeError
    end.
Proof.
  intros _. unfold bind at 1.
  destruct (save_all_run saves (fresh w)) as (m' & Hrun & Hd).
  rewrite Hrun, load_checkpoint_run, Hd.
  destruct (last (map fst saves)); reflexivity.
Qed.

Lemma load_checkpoint_unsaved_path_witness :
  ("b"%string ∉ map snd [(ckpt 1, "a"%string); (ckpt 2, "c"%string)])
  /\ fst ((do Engine.save_all [(ckpt 1, "a"%string); (ckpt 2, "c"%string)]
           then Engine.load_checkpoint "b") (fresh tt))
     = Ok (ckpt 2).
Proof.
  split.
  - cbn. intros H. repeat (apply elem_of_cons in H; destruct H as [H | H];
                           [discriminate |]).
    apply elem_of_nil in H. exact H.
  - exact (load_checkpoint_unsaved_path tt
             [(ckpt 1, "a"%string); (ckpt 2, "c"%string)] "b"
             ltac:(cbn; intros H;
                   repeat (apply elem_of_cons in H; destruct H as [H | H];
                           [discriminate |]);
                   apply elem_of_nil in H; exact H)).
Defined.

(** C4 as stated fails: after [save_checkpoint(c1, "p")], a later save of a
    different checkpoint under the different path ["q"] changes what
    [load_checkpoint("p")] returns. *)
Lemma save_load_path_keyed_counterexample :
  "q"%string <> "p"%string
  /\ ckpt 2 <> ckpt 1
  /\ fst ((do Engine.save_checkpoint (ckpt 1) "p"
           then do Engine.save_checkpoint (ckpt 2) "q"
           then Engine.load_checkpoint "p") (fresh tt))
     = Ok (ckpt 2).
Proof.
  split; [discriminate |]. split; [exact ckpt_neq | reflexivity].
Qed.

(** C4, amended.  The reference engine keeps one checkpoint, not one per
    path: after [save_checkpoint(c, p)], [load_checkpoint(q)] returns [c]
    for every path [q] ([p] included) as long as no other save was made in
    between; after later saves, under whatever paths, it returns the
    checkpoint of the latest of them. *)
Theorem save_then_load_latest {W : Type} (m : machine W)
    (c : gmap string pyval) (p q : string)
    (later : list (gmap string pyval * string)) :
  fst ((do Engine.save_checkpoint c p
        then Engine.load_checkpoint q) m) = Ok c
  /\ fst ((do Engine.save_checkpoint c p
           then do Engine.save_all later
           then Engine.load_checkpoint q) m)
     = Ok (default c (last (map fst later))).
Proof.
  split.
  - unfold bind at 1. rewrite save_checkpoint_run, load_checkpoint_run.
    reflexivity.
  - unfold bind at 1. rewrite save_checkpoint_run. unfold bind at 1.
    destruct (save_all_run later
                (mkMachine (Some c)
                   (stdout m ++ [String.append "checkpoint saved at "
                                   (String.append " " p)])
                   (world m))) as (m' & Hrun & Hd).
    rewrite Hrun, load_checkpoint_run, Hd.
    destruct (last (map fst later)); reflexivity.
Qed.

(** C9.  For every checkpoint that has the four keys [model], [criterion],
    [optimizer] and [scheduler], [unpack_checkpoint] returns [None] and
    leaves the engine, the output and the world, hence every object the
    caller passed, as they were: the values read from the checkpoint only
    go to the local names of the call, which end with the call. *)
Theorem unpack_checkpoint_noop {W : Type} (m : machine W)
    (checkpoint : gmap string pyval) (vm vc vo vs : pyval)
    (model criterion optimizer scheduler : pyval) (kw : kwargs) :
  checkpoint !! "model"%string = Some vm ->
  checkpoint !! "criterion"%string = Some vc ->
  checkpoint !! "optimizer"%string = Some vo ->
  checkpoint !! "scheduler"%string = Some vs ->
  Engine.unpack_checkpoint checkpoint model criterion optimizer scheduler kw m
  = (Ok PyNone, m)
  /\ Engine.unpack_checkpoint_body
       (Engine.mkLocals checkpoint model criterion optimizer scheduler kw) m
     = (Ok (Engine.mkLocals checkpoint vm vc vo vs kw), m).
Proof.
  intros Hm Hc Ho Hs.
  assert (Hbody : Engine.unpack_checkpoint_body
                    (Engine.mkLocals checkpoint model criterion optimizer
                       scheduler kw) m
                  = (Ok (Engine.mkLocals checkpoint vm vc vo vs kw), m)).
  { unfold Engine.unpack_checkpoint_body, bind, getitem. cbn.
    rewrite Hm. cbn. rewrite Hc. cbn. rewrite Ho. cbn. rewrite Hs.
    reflexivity. }
  split; [| exact Hbody].
  unfold Engine.unpack_checkpoint, bind. rewrite Hbody. reflexivity.
Qed.

Lemma unpack_checkpoint_noop_witness :
  Engine.pack_checkpoint (PyInt 1) (PyInt 2) (PyInt 3) (PyInt 4) []
    !! "model"%string = Some (PyInt 1)
  /\ Engine.pack_checkpoint (PyInt 1) (PyInt 2) (PyInt 3) (PyInt 4) []
       !! "criterion"%string = Some (PyInt 2)
  /\ Engine.pack_checkpoint (PyInt 1) (PyInt 2) (PyInt 3) (PyInt 4) []
       !! "optimizer"%string = Some (PyInt 3)
  /\ Engine.pack_checkpoint (PyInt 1) (PyInt 2) (PyInt 3) (PyInt 4) []
       !! "scheduler"%string = Some (PyInt 4)
  /\ Engine.unpack_checkpoint
       (Engine.pack_checkpoint (PyInt 1) (PyInt 2) (PyInt 3) (PyInt 4) [])
       (PyStr "m") (PyStr "c") (PyStr "o") (PyStr "s") [] (fresh tt)
     = (Ok PyNone, fresh tt).
Proof.
  repeat (split; [reflexivity |]).
  exact (proj1 (unpack_checkpoint_noop (fresh tt)
                  (Engine.pack_checkpoint (PyInt 1) (PyInt 2) (PyInt 3)
                     (PyInt 4) [])
                  (PyInt 1) (PyInt 2) (PyInt 3) (PyInt 4)
                  (PyStr "m") (PyStr "c") (PyStr "o") (PyStr "s") []
                  eq_refl eq_refl eq_refl eq_refl)).
Defined.

(** * Further properties *)

(** ** Welford's sum of squared deviations *)

(** One update past the first keeps [m_s] equal to the weighted sum of
    squares [Q] minus [S * S / W]. *)
Lemma update_step_m_s (self : AverageMetric.t) (S Q : Qc) (v : Qc) (w : Z) :
  1 <= AverageMetric.n self ->
  0 < AverageMetric.num_samples self ->
  AverageMetric.mean_old self
  = (S / float (AverageMetric.num_samples self))%Qc ->
  AverageMetric.m_s self
  = (Q - S * S / float (AverageMetric.num_samples self))%Qc ->
  0 < w ->
  exists self',
    AverageMetric.update self v w = (Ok tt, self')
    /\ AverageMetric.n self' = AverageMetric.n self + 1
    /\ AverageMetric.num_samples self' = AverageMetric.num_samples self + w
    /\ AverageMetric.mean_old self'
       = ((S + v * float w) / float (AverageMetric.num_samples self'))%Qc
    /\ AverageMetric.m_s self'
       = (Q + v * v * float w
          - (S + v * float w) * (S + v * float w)
            / float (AverageMetric.num_samples self'))%Qc
    /\ AverageMetric.std self'
       = Sqrt (AverageMetric.m_s self'
               / (float (AverageMetric.num_samples self') - 1))%Qc.
Proof.
  intros Hn HW Hm Hms Hw.
  unfold AverageMetric.update.
  cbn [AverageMetric.n AverageMetric.set_n AverageMetric.set_value
       AverageMetric.set_num_samples AverageMetric.num_samples
       AverageMetric.mean_old AverageMetric.m_s].
  destruct (Z.eqb_spec (AverageMetric.n self + 1) 1) as [E | _]; [lia |].
  set (W' := AverageMetric.num_samples self + w) in *.
  assert (HW' : float W' <> 0%Qc) by (apply float_pos_neq0; lia).
  rewrite (truediv_ok _ _ HW').
  cbn.
  assert (HW1 : (float W' - 1)%Qc <> 0%Qc).
  { rewrite float_pred. apply float_pos_neq0. lia. }
  rewrite (truediv_ok _ _ HW1).
  eexists. split; [reflexivity |]. cbn.
  assert (HW0 : float (AverageMetric.num_samples self) <> 0%Qc)
    by (apply float_pos_neq0; lia).
  repeat split.
  - rewrite Hm. subst W'. rewrite float_add. rewrite float_add in HW'.
    field. split; assumption.
  - rewrite Hm, Hms. subst W'. rewrite float_add. rewrite float_add in HW'.
    field. split; assumption.
Qed.

Lemma update_all_from_m_s (l : list (Qc * Z)) :
  forall (self : AverageMetric.t) (S Q : Qc),
    1 <= AverageMetric.n self ->
    0 < AverageMetric.num_samples self ->
    AverageMetric.mean_old self
    = (S / float (AverageMetric.num_samples self))%Qc ->
    AverageMetric.m_s self
    = (Q - S * S / float (AverageMetric.num_samples self))%Qc ->
    Forall (fun p => 0 < snd p) l ->
    exists self',
      AverageMetric.update_all self l = (Ok tt, self')
      /\ AverageMetric.num_samples self'
         = AverageMetric.num_samples self + total_weight l
      /\ AverageMetric.m_s self'
         = (Q + weighted_sum_sq l
            - (S + weighted_sum l) * (S + weighted_sum l)
              / float (AverageMetric.num_samples self'))%Qc
      /\ (l <> [] ->
          AverageMetric.std self'
          = Sqrt (AverageMetric.m_s self'
                  / (float (AverageMetric.num_samples self') - 1))%Qc).
Proof.
  induction l as [| [v w] l IH]; intros self S Q Hn HW Hm Hms Hpos.
  - exists self. cbn. rewrite Z.add_0_r, !Qcplus_0_r.
    repeat split; [exact Hms | congruence].
  - inversion Hpos as [| ? ? Hw Hpos']; subst. cbn in Hw.
    destruct (update_step_m_s self S Q v w Hn HW Hm Hms Hw)
      as (self1 & Hup & Hn1 & HW1 & Hm1 & Hms1 & Hstd1).
    cbn [AverageMetric.update_all]. rewrite Hup.
    destruct (IH self1 (S + v * float w)%Qc (Q + v * v * float w)%Qc)
      as (self' & Hall & HW' & Hms' & Hstd'); try assumption; try lia.
    exists self'. split; [exact Hall |].
    cbn [total_weight weighted_sum weighted_sum_sq].
    split; [lia |]. split.
    + rewrite Hms', !Qcplus_assoc. reflexivity.
    + intros _. destruct l as [| p l].
      * cbn in Hall. injection Hall as <-. exact Hstd1.
      * apply Hstd'. discriminate.
Qed.

Lemma total_weight_positive (l : list (Qc * Z)) :
  l <> [] -> Forall (fun p => 0 < snd p) l -> 0 < total_weight l.
Proof.
  intros Hne Hpos. destruct l as [| [v w] l]; [congruence |].
  inversion Hpos as [| ? ? Hw Hpos']; subst. cbn in *.
  assert (0 <= total_weight l); [| lia].
  clear -Hpos'. induction Hpos' as [| [v' w'] l Hw' _ IH]; cbn in *; lia.
Qed.

Lemma weighted_sq_dev_expand (c : Qc) (l : list (Qc * Z)) :
  weighted_sq_dev c l
  = (weighted_sum_sq l - (1 + 1) * c * weighted_sum l
     + c * c * float (total_weight l))%Qc.
Proof.
  induction l as [| [v w] l IH]; cbn.
  - replace (float 0) with 0%Qc by (apply Qc_is_canon; reflexivity). ring.
  - rewrite IH, float_add. ring.
Qed.

(** The sum of squares minus [S * S / W] is the sum of the squared deviations
    from the weighted average. *)
Lemma sum_sq_minus_is_sq_dev (l : list (Qc * Z)) :
  0 < total_weight l ->
  (weighted_sum_sq l - weighted_sum l * weighted_sum l / float (total_weight l))%Qc
  = weighted_sq_dev (weighted_average l) l.
Proof.
  intros HW. rewrite weighted_sq_dev_expand. unfold weighted_average.
  pose proof (float_pos_neq0 _ HW) as HfW.
  field. exact HfW.
Qed.

(** A non-empty run from a fresh metric, with [m_s] and [std]. *)
Lemma update_all_fresh_m_s (b : bool) (l : list (Qc * Z)) :
  l <> [] ->
  Forall (fun p => 0 < snd p) l ->
  exists self',
    AverageMetric.update_all (AverageMetric.init b) l = (Ok tt, self')
    /\ AverageMetric.num_samples self' = total_weight l
    /\ AverageMetric.m_s self' = weighted_sq_dev (weighted_average l) l
    /\ ((1 < length l)%nat ->
        AverageMetric.std self'
        = Sqrt (weighted_sq_dev (weighted_average l) l
                / (float (total_weight l) - 1))%Qc).
Proof.
  intros Hne Hpos.
  pose proof (total_weight_positive l Hne Hpos) as HWpos.
  destruct l as [| [v w] l]; [congruence |].
  inversion Hpos as [| ? ? Hw Hpos']; subst. cbn in Hw.
  cbn [AverageMetric.update_all]. rewrite update_first.
  destruct (update_all_from_m_s l
              (AverageMetric.mk b 1 v (Num v) v 0%Qc (Num 0%Qc) w)
              (v * float w)%Qc (v * v * float w)%Qc)
    as (self' & Hall & HW' & Hms' & Hstd');
    cbn; try assumption; try lia.
  - field. apply float_pos_neq0. exact Hw.
  - field. apply float_pos_neq0. exact Hw.
  - cbn in HW'.
    assert (Hms : AverageMetric.m_s self'
                  = weighted_sq_dev (weighted_average ((v, w) :: l))
                      ((v, w) :: l)).
    { rewrite <- sum_sq_minus_is_sq_dev by exact HWpos.
      rewrite Hms', HW'. reflexivity. }
    exists self'. split; [exact Hall |]. split; [exact HW' |].
    split; [exact Hms |].
    intros Hlen. rewrite Hstd'.
    + rewrite Hms, HW'. reflexivity.
    + destruct l; [cbn in Hlen; lia | discriminate].
Qed.

(** X1.  After a non-empty run of updates with positive weights from a
    fresh metric, [m_s] is the weighted sum of the squared deviations of the
    values from the final mean. *)
Theorem m_s_is_weighted_squared_deviation (b : bool) (l : list (Qc * Z)) :
  l <> [] ->
  Forall (fun p => 0 < snd p) l ->
  exists self',
    AverageMetric.update_all (AverageMetric.init b) l = (Ok tt, self')
    /\ AverageMetric.mean self' = Num (weighted_average l)
    /\ AverageMetric.m_s self' = weighted_sq_dev (weighted_average l) l.
Proof.
  intros Hne Hpos.
  destruct (update_all_fresh_m_s b l Hne Hpos) as (self' & Hall & _ & Hms & _).
  destruct (update_all_fresh b l Hne Hpos) as (self'' & Hall' & Hmean & _).
  rewrite Hall in Hall'. injection Hall' as <-.
  exists self'. repeat split; assumption.
Qed.

Lemma m_s_is_weighted_squared_deviation_witness :
  two_updates <> []
  /\ Forall (fun p : Qc * Z => 0 < snd p) two_updates
  /\ exists self',
      AverageMetric.update_all (AverageMetric.init true)
        two_updates = (Ok tt, self')
      /\ AverageMetric.mean self'
         = Num (weighted_average two_updates)
      /\ AverageMetric.m_s self'
         = weighted_sq_dev (weighted_average two_updates)
             two_updates.
Proof.
  split; [discriminate |].
  split; [repeat constructor; cbn; lia |].
  apply (m_s_is_weighted_squared_deviation true two_updates).
  - discriminate.
  - repeat constructor; cbn; lia.
Defined.



(** ** What every update does, failing or not *)

Lemma float_0 : float 0 = 0%Qc.
Proof. apply Qc_is_canon. reflexivity. Qed.

Lemma float_eq0_iff (z : Z) : float z = 0%Qc <-> z = 0.
Proof.
  split; [apply float_inj0 | intros ->; apply float_0].
Qed.

Lemma truediv_cases (a b : Qc) :
  (b = 0%Qc /\ truediv a b = Raise ZeroDivisionError)
  \/ (b <> 0%Qc /\ truediv a b = Ok (a / b)%Qc).
Proof.
  unfold truediv. destruct (Qc_eq_dec b 0%Qc); [left | right]; auto.
Qed.

(** The first three statements of [update] are done before anything can
    fail, and nothing writes [compute_on_call]. *)
Lemma update_counters (self : AverageMetric.t) (v : Qc) (w : Z) :
  AverageMetric.n (snd (AverageMetric.update self v w))
  = AverageMetric.n self + 1
  /\ AverageMetric.num_samples (snd (AverageMetric.update self v w))
     = AverageMetric.num_samples self + w
  /\ AverageMetric.value (snd (AverageMetric.update self v w)) = v
  /\ AverageMetric.compute_on_call (snd (AverageMetric.update self v w))
     = AverageMetric.compute_on_call self.
Proof.
  unfold AverageMetric.update.
  cbn [AverageMetric.n AverageMetric.set_n AverageMetric.set_value
       AverageMetric.set_num_samples AverageMetric.num_samples
       AverageMetric.mean_old AverageMetric.m_s].
  destruct (AverageMetric.n self + 1 =? 1); [cbn; auto |].
  match goal with
  | |- context [truediv ?a ?b] =>
      destruct (truediv_cases a b) as [[_ ->] | [_ ->]]
  end; [cbn; auto |].
  cbn [AverageMetric.n AverageMetric.set_mean AverageMetric.set_m_s
       AverageMetric.set_mean_old AverageMetric.num_samples
       AverageMetric.mean_old AverageMetric.m_s AverageMetric.value
       AverageMetric.compute_on_call AverageMetric.mean AverageMetric.std].
  match goal with
  | |- context [truediv ?a ?b] =>
      destruct (truediv_cases a b) as [[_ ->] | [_ ->]]
  end; cbn; auto.
Qed.

Lemma update_all_compute_on_call (l : list (Qc * Z)) :
  forall self : AverageMetric.t,
    AverageMetric.compute_on_call (snd (AverageMetric.update_all self l))
    = AverageMetric.compute_on_call self.
Proof.
  induction l as [| [v w] l IH]; intros self; [reflexivity |].
  cbn [AverageMetric.update_all].
  pose proof (update_counters self v w) as (_ & _ & _ & Hc).
  destruct (AverageMetric.update self v w) as [[[] | e] self1]; cbn in Hc.
  - rewrite IH. exact Hc.
  - exact Hc.
Qed.

Lemma last_cons_default {A : Type} (l : list A) :
  forall (x d d' : A), List.last (x :: l) d = List.last (x :: l) d'.
Proof.
  induction l as [| y l IH]; intros x d d'; [reflexivity |].
  change (List.last (y :: l) d = List.last (y :: l) d'). apply IH.
Qed.

(** X3.  When a run of updates succeeds, with any weights (zero and
    negative included), [n] has grown by the number of updates and
    [num_samples] by the sum of their weights, and [value] is the last value
    fed. *)
Theorem update_all_counters (l : list (Qc * Z)) :
  forall self self' : AverageMetric.t,
    AverageMetric.update_all self l = (Ok tt, self') ->
    AverageMetric.n self' = AverageMetric.n self + Z.of_nat (length l)
    /\ AverageMetric.num_samples self'
       = AverageMetric.num_samples self + total_weight l
    /\ AverageMetric.value self'
       = List.last (map fst l) (AverageMetric.value self).
Proof.
  induction l as [| [v w] l IH]; intros self self' Hrun.
  - cbn in Hrun. injection Hrun as <-. cbn. repeat split; lia.
  - cbn [AverageMetric.update_all] in Hrun.
    pose proof (update_counters self v w) as (Hn & HW & Hv & _).
    destruct (AverageMetric.update self v w) as [[[] | e] self1];
      [| discriminate].
    cbn in Hn, HW, Hv.
    destruct (IH self1 self' Hrun) as (Hn' & HW' & Hv').
    cbn [length total_weight map fst].
    split; [lia |]. split; [lia |].
    rewrite Hv', Hv. destruct l as [| p l]; [reflexivity |].
    cbn [map].
    change (List.last (fst p :: map fst l) v
            = List.last (fst p :: map fst l) (AverageMetric.value self)).
    apply last_cons_default.
Qed.

Lemma update_all_counters_witness :
  exists self' : AverageMetric.t,
    AverageMetric.update_all (AverageMetric.init true) two_updates
    = (Ok tt, self')
    /\ AverageMetric.n self' = 2
    /\ AverageMetric.num_samples self' = 4.
Proof.
  destruct (update_all_fresh true two_updates ltac:(discriminate)
              ltac:(repeat constructor; cbn; lia)) as (self' & Hall & _).
  exists self'. split; [exact Hall |].
  destruct (update_all_counters two_updates (AverageMetric.init true) self'
              Hall) as (Hn & HW & _).
  split; [exact Hn | exact HW].
Defined.


(** X5.  A failed update is not undone: [n], [num_samples] and [value] are
    already advanced and [std] is the stale one; when the cumulative
    [num_samples] is [0] also [mean] and [m_s] are the old ones, when it is
    [1] the mean has already moved to
    [mean_old + (v - mean_old) * w]. *)
Theorem failed_update_state (self : AverageMetric.t) (v : Qc) (w : Z) (e : exn) :
  fst (AverageMetric.update self v w) = Raise e ->
  let self' := snd (AverageMetric.update self v w) in
  AverageMetric.n self' = AverageMetric.n self + 1
  /\ AverageMetric.num_samples self' = AverageMetric.num_samples self + w
  /\ AverageMetric.value self' = v
  /\ AverageMetric.std self' = AverageMetric.std self
  /\ (AverageMetric.num_samples self + w = 0 ->
      AverageMetric.mean self' = AverageMetric.mean self
      /\ AverageMetric.m_s self' = AverageMetric.m_s self)
  /\ (AverageMetric.num_samples self + w = 1 ->
      AverageMetric.mean self'
      = Num (AverageMetric.mean_old self
             + (v - AverageMetric.mean_old self) * float w)%Qc).
Proof.
  intros Hfail self'.
  pose proof (update_counters self v w) as (Hn & HW & Hv & _).
  split; [exact Hn |]. split; [exact HW |]. split; [exact Hv |].
  subst self'. revert Hfail. clear Hn HW Hv.
  unfold AverageMetric.update.
  cbn [AverageMetric.n AverageMetric.set_n AverageMetric.set_value
       AverageMetric.set_num_samples AverageMetric.num_samples
       AverageMetric.mean_old AverageMetric.m_s].
  destruct (AverageMetric.n self + 1 =? 1); [discriminate |].
  set (W' := AverageMetric.num_samples self + w).
  match goal with
  | |- context [truediv ?a (float W')] =>
      destruct (truediv_cases a (float W')) as [[H0 ->] | [H0 ->]]
  end.
  { apply float_eq0_iff in H0. intros _. cbn.
    split; [reflexivity |]. split; [auto | lia]. }
  cbn [AverageMetric.n AverageMetric.set_mean AverageMetric.set_m_s
       AverageMetric.set_mean_old AverageMetric.num_samples
       AverageMetric.mean_old AverageMetric.m_s
       AverageMetric.set_n AverageMetric.set_value
       AverageMetric.set_num_samples].
  fold W'.
  match goal with
  | |- context [truediv ?a (float W' - 1)%Qc] =>
      destruct (truediv_cases a (float W' - 1)%Qc) as [[H1 ->] | [H1 ->]]
  end; [| discriminate].
  intros _. cbn. split; [reflexivity |]. split.
  - intros HW. exfalso. apply H0, float_eq0_iff, HW.
  - intros HW. rewrite HW, float_1. f_equal. field. discriminate.
Qed.

Lemma failed_update_state_witness :
  fst (AverageMetric.update
         (snd (AverageMetric.update (AverageMetric.init true) (float 3) 1))
         (float 5) 0) = Raise ZeroDivisionError
  /\ AverageMetric.n
       (snd (AverageMetric.update
               (snd (AverageMetric.update (AverageMetric.init true) (float 3) 1))
               (float 5) 0)) = 2
  /\ AverageMetric.std
       (snd (AverageMetric.update
               (snd (AverageMetric.update (AverageMetric.init true) (float 3) 1))
               (float 5) 0)) = Num 0%Qc.
Proof.
  split; [reflexivity |].
  destruct (failed_update_state
              (snd (AverageMetric.update (AverageMetric.init true) (float 3) 1))
              (float 5) 0 ZeroDivisionError eq_refl)
    as (Hn & _ & _ & Hstd & _).
  split; [exact Hn | exact Hstd].
Defined.

(** ** Reset and the call shortcut *)

Lemma accuracy_update_compute_on_call (self : AverageMetric.t)
    (logits : list Value) (targets : list Qc) :
  AverageMetric.compute_on_call
    (snd (AccuracyMetric.update self logits targets))
  = AverageMetric.compute_on_call self.
Proof.
  unfold AccuracyMetric.update.
  match goal with
  | |- context [truediv ?a ?b] =>
      destruct (truediv_cases a b) as [[_ ->] | [_ ->]]
  end; [reflexivity |].
  apply update_counters.
Qed.

Lemma accuracy_update_all_compute_on_call
    (batches : list (list Value * list Qc)) :
  forall self : AverageMetric.t,
    AverageMetric.compute_on_call (snd (accuracy_update_all self batches))
    = AverageMetric.compute_on_call self.
Proof.
  induction batches as [| [lg tg] rest IH]; intros self; [reflexivity |].
  cbn [accuracy_update_all].
  pose proof (accuracy_update_compute_on_call self lg tg) as Hc.
  destruct (AccuracyMetric.update self lg tg) as [[[] | e] self1]; cbn in Hc.
  - rewrite IH. exact Hc.
  - exact Hc.
Qed.

(** X6.  [reset] after any run of updates, of [AverageMetric] or of
    [AccuracyMetric], with any inputs and whether or not an update failed,
    gives the state of a freshly constructed metric with the same
    [compute_on_call]; [reset] twice is [reset] once. *)
Theorem reset_restores_constructed_state
    (b : bool) (self : AverageMetric.t)
    (l : list (Qc * Z)) (batches : list (list Value * list Qc)) :
  AverageMetric.reset (snd (AverageMetric.update_all (AverageMetric.init b) l))
  = AverageMetric.init b
  /\ AverageMetric.reset
       (snd (accuracy_update_all (AverageMetric.init b) batches))
     = AverageMetric.init b
  /\ AverageMetric.reset (snd (AverageMetric.update_all self l))
     = AverageMetric.reset self
  /\ AverageMetric.reset (AverageMetric.reset self) = AverageMetric.reset self.
Proof.
  unfold AverageMetric.reset.
  rewrite !update_all_compute_on_call, accuracy_update_all_compute_on_call.
  repeat split.
Qed.




(** ** Accuracy over a stream of batches *)

Lemma accuracy_update_all_as_update_all
    (batches : list (list Value * list Qc)) :
  Forall well_formed_batch batches ->
  forall self : AverageMetric.t,
    accuracy_update_all self batches
    = AverageMetric.update_all self (map batch_observation batches).
Proof.
  induction 1 as [| [lg tg] rest [Hlen Hne] _ IH]; intros self;
    [reflexivity |].
  cbn [accuracy_update_all map AverageMetric.update_all batch_observation
       fst snd] in *.
  rewrite (accuracy_update_equal_length self lg tg Hlen Hne).
  destruct (AverageMetric.update self (agreement_fraction lg tg)
              (Z.of_nat (length lg))) as [[[] | e] self1];
    [apply IH | reflexivity].
Qed.

Lemma batch_observations_positive (batches : list (list Value * list Qc)) :
  Forall well_formed_batch batches ->
  Forall (fun p => 0 < snd p) (map batch_observation batches).
Proof.
  induction 1 as [| [lg tg] rest [Hlen Hne] _ IH]; cbn; constructor;
    [| exact IH].
  cbn in *. destruct lg; [congruence | cbn; lia].
Qed.

Lemma batch_observations_total_weight
    (batches : list (list Value * list Qc)) :
  total_weight (map batch_observation batches) = total_positions batches.
Proof.
  induction batches as [| [lg tg] rest IH]; cbn; [reflexivity |].
  rewrite IH. reflexivity.
Qed.

Lemma batch_observations_weighted_sum
    (batches : list (list Value * list Qc)) :
  Forall well_formed_batch batches ->
  weighted_sum (map batch_observation batches)
  = float (total_agreeing batches).
Proof.
  induction 1 as [| [lg tg] rest [Hlen Hne] _ IH]; cbn;
    [symmetry; apply float_0 |].
  cbn in Hne. rewrite IH, float_add. unfold agreement_fraction.
  assert (Hl : float (Z.of_nat (length lg)) <> 0%Qc).
  { apply float_pos_neq0. destruct lg; [congruence | cbn; lia]. }
  field. exact Hl.
Qed.

Lemma accuracy_run_fresh (b : bool) (batches : list (list Value * list Qc)) :
  batches <> [] ->
  Forall well_formed_batch batches ->
  exists self',
    accuracy_update_all (AverageMetric.init b) batches = (Ok tt, self')
    /\ AverageMetric.mean self'
       = Num (float (total_agreeing batches)
              / float (total_positions batches))%Qc
    /\ AverageMetric.num_samples self' = total_positions batches.
Proof.
  intros Hne Hwf.
  rewrite (accuracy_update_all_as_update_all batches Hwf).
  destruct (update_all_fresh b (map batch_observation batches))
    as (self' & Hall & Hmean & Hnum).
  - destruct batches; [congruence | discriminate].
  - apply batch_observations_positive. exact Hwf.
  - exists self'. split; [exact Hall |].
    unfold weighted_average in Hmean.
    rewrite batch_observations_weighted_sum, batch_observations_total_weight
      in Hmean by exact Hwf.
    rewrite batch_observations_total_weight in Hnum.
    split; assumption.
Qed.





Lemma float_le (a b : Z) : a <= b -> (float a <= float b)%Qc.
Proof.
  intros H. unfold Qcle, float. cbn. rewrite !Qred_correct.
  rewrite <- Zle_Qle. exact H.
Qed.

Lemma float_lt (a b : Z) : a < b -> (float a < float b)%Qc.
Proof.
  intros H. unfold Qclt, float. cbn. rewrite !Qred_correct.
  rewrite <- Zlt_Qlt. exact H.
Qed.

Lemma total_agreeing_bounds (batches : list (list Value * list Qc)) :
  0 <= total_agreeing batches <= total_positions batches.
Proof.
  induction batches as [| [lg tg] rest IH]; cbn; [lia |].
  pose proof (List.filter_length_le (agrees_at lg tg) (seq 0 (length lg))) as H.
  rewrite length_seq in H. unfold agreeing_positions. lia.
Qed.

(** X9.  Over a non-empty stream of batches, each of two equal-length
    non-empty sequences, fed to a fresh [AccuracyMetric], the running
    accuracy lies between [0] and [1]. *)
Theorem accuracy_mean_in_unit_interval
    (b : bool) (batches : list (list Value * list Qc)) :
  batches <> [] ->
  Forall well_formed_batch batches ->
  exists (self' : AverageMetric.t) (q : Qc),
    accuracy_update_all (AverageMetric.init b) batches = (Ok tt, self')
    /\ AverageMetric.mean self' = Num q
    /\ (0 <= q)%Qc /\ (q <= 1)%Qc.
Proof.
  intros Hne Hwf.
  destruct (accuracy_run_fresh b batches Hne Hwf)
    as (self' & Hall & Hmean & Hnum).
  exists self'. eexists. split; [exact Hall |]. split; [exact Hmean |].
  pose proof (total_agreeing_bounds batches) as [HA0 HAT].
  assert (HT : 0 < total_positions batches).
  { rewrite <- batch_observations_total_weight.
    apply total_weight_positive.
    - destruct batches; [congruence | discriminate].
    - apply batch_observations_positive. exact Hwf. }
  pose proof (float_lt _ _ HT) as HfT. rewrite float_0 in HfT.
  assert (HfT0 : float (total_positions batches) <> 0%Qc)
    by (apply float_pos_neq0; exact HT).
  split.
  - apply (Qcmult_lt_0_le_reg_r _ _ (float (total_positions batches)) HfT).
    rewrite Qcmult_0_l.
    replace (float (total_agreeing batches) / float (total_positions batches)
             * float (total_positions batches))%Qc
      with (float (total_agreeing batches)) by (field; exact HfT0).
    rewrite <- float_0. apply float_le. exact HA0.
  - apply (Qcmult_lt_0_le_reg_r _ _ (float (total_positions batches)) HfT).
    rewrite Qcmult_1_l.
    replace (float (total_agreeing batches) / float (total_positions batches)
             * float (total_positions batches))%Qc
      with (float (total_agreeing batches)) by (field; exact HfT0).
    apply float_le. exact HAT.
Qed.

Lemma accuracy_mean_in_unit_interval_witness :
  two_batches <> []
  /\ Forall well_formed_batch two_batches
  /\ exists (self' : AverageMetric.t) (q : Qc),
      accuracy_update_all (AverageMetric.init true) two_batches = (Ok tt, self')
      /\ AverageMetric.mean self' = Num q
      /\ (0 <= q)%Qc /\ (q <= 1)%Qc.
Proof.
  split; [discriminate |].
  split; [repeat constructor; discriminate |].
  apply (accuracy_mean_in_unit_interval true two_batches);
    [discriminate | repeat constructor; discriminate].
Defined.

(** ** Packing checkpoints *)



Lemma fold_insert_is_Some (kw : kwargs) :
  forall (d : gmap string pyval) (k : string),
    is_Some (d !! k) ->
    is_Some (fold_left (fun d '(k, v) => <[k := v]> d) kw d !! k).
Proof.
  induction kw as [| [k' v'] kw IH]; intros d k Hk; [exact Hk |].
  cbn [fold_left]. apply IH.
  destruct (decide (k' = k)) as [-> | Hne].
  - rewrite lookup_insert_eq. eauto.
  - rewrite lookup_insert_ne by exact Hne. exact Hk.
Qed.










Lemma getitem_some {W : Type} (d : gmap string pyval) (k : string) (v : pyval)
    (m : machine W) :
  d !! k = Some v -> getitem d k m = (Ok v, m).
Proof. intros H. unfold getitem. rewrite H. reflexivity. Qed.

Lemma getitem_none {W : Type} (d : gmap string pyval) (k : string)
    (m : machine W) :
  d !! k = None -> getitem d k m = (Raise KeyError, m).
Proof. intros H. unfold getitem. rewrite H. reflexivity. Qed.

(** X13.  A call of [pack_checkpoint] with an extra keyword named like one
    of the four parameters raises [TypeError]; every checkpoint a call does
    return can be unpacked: [unpack_checkpoint] finds the four keys, returns
    [None] and leaves everything as it was. *)
Theorem pack_then_unpack {W : Type} (m : machine W)
    (model criterion optimizer scheduler : pyval) (kw : kwargs)
    (model' criterion' optimizer' scheduler' : pyval) (kw' : kwargs) :
  (forall (k : string) (v : pyval),
      (k, v) ∈ kw -> k ∈ fixed_keys ->
      pack_checkpoint_call model criterion optimizer scheduler kw
      = Raise TypeError)
  /\ (forall c : gmap string pyval,
        pack_checkpoint_call model criterion optimizer scheduler kw = Ok c ->
        Engine.unpack_checkpoint c model' criterion' optimizer' scheduler'
          kw' m
        = (Ok PyNone, m)).
Proof.
  split.
  - intros k v Hin Hk. unfold pack_checkpoint_call.
    destruct (decide (Forall (fun k => k ∉ fixed_keys) (map fst kw)))
      as [Hfix | _]; [| reflexivity].
    exfalso. rewrite Forall_forall in Hfix. apply (Hfix k); [| exact Hk].
    apply list_elem_of_fmap. exists (k, v). split; [reflexivity | exact Hin].
  - intros c Hc. unfold pack_checkpoint_call in Hc.
    destruct (decide (Forall (fun k => k ∉ fixed_keys) (map fst kw)));
      [| discriminate].
    injection Hc as <-.
    set (c := Engine.pack_checkpoint model criterion optimizer scheduler kw).
    assert (Hkeys : forall k, k ∈ fixed_keys -> is_Some (c !! k)).
    { intros k Hk. subst c. unfold Engine.pack_checkpoint.
      apply fold_insert_is_Some. apply elem_of_dom.
      rewrite !dom_insert_L. unfold fixed_keys in Hk. set_solver. }
    destruct (Hkeys "model"%string) as [vm Hm];
      [unfold fixed_keys; set_solver |].
    destruct (Hkeys "criterion"%string) as [vc Hcr];
      [unfold fixed_keys; set_solver |].
    destruct (Hkeys "optimizer"%string) as [vo Ho];
      [unfold fixed_keys; set_solver |].
    destruct (Hkeys "scheduler"%string) as [vs Hs];
      [unfold fixed_keys; set_solver |].
    unfold Engine.unpack_checkpoint, Engine.unpack_checkpoint_body, bind. cbn.
    rewrite (getitem_some _ _ _ _ Hm). cbn.
    rewrite (getitem_some _ _ _ _ Hcr). cbn.
    rewrite (getitem_some _ _ _ _ Ho). cbn.
    rewrite (getitem_some _ _ _ _ Hs). reflexivity.
Qed.

(** X14.  [unpack_checkpoint] on a checkpoint that lacks one of the four
    keys [model], [criterion], [optimizer], [scheduler] raises [KeyError]
    and changes nothing. *)
Theorem unpack_checkpoint_missing_key {W : Type} (m : machine W)
    (checkpoint : gmap string pyval)
    (model criterion optimizer scheduler : pyval) (kw : kwargs) (k : string) :
  k ∈ fixed_keys ->
  checkpoint !! k = None ->
  Engine.unpack_checkpoint checkpoint model criterion optimizer scheduler kw m
  = (Raise KeyError, m).
Proof.
  intros Hk Hnone.
  unfold Engine.unpack_checkpoint, Engine.unpack_checkpoint_body, bind. cbn.
  destruct (checkpoint !! "model"%string) as [vm |] eqn:Hm;
    [rewrite (getitem_some _ _ _ _ Hm) | rewrite (getitem_none _ _ _ Hm)];
    [cbn | reflexivity].
  destruct (checkpoint !! "criterion"%string) as [vc |] eqn:Hc;
    [rewrite (getitem_some _ _ _ _ Hc) | rewrite (getitem_none _ _ _ Hc)];
    [cbn | reflexivity].
  destruct (checkpoint !! "optimizer"%string) as [vo |] eqn:Ho;
    [rewrite (getitem_some _ _ _ _ Ho) | rewrite (getitem_none _ _ _ Ho)];
    [cbn | reflexivity].
  destruct (checkpoint !! "scheduler"%string) as [vs |] eqn:Hs;
    [rewrite (getitem_some _ _ _ _ Hs) | rewrite (getitem_none _ _ _ Hs)];
    [cbn | reflexivity].
  exfalso. unfold fixed_keys in Hk.
  repeat (apply elem_of_cons in Hk as [-> | Hk]; [congruence |]).
  apply elem_of_nil in Hk. exact Hk.
Qed.

Lemma unpack_checkpoint_missing_key_witness :
  "optimizer"%string ∈ fixed_keys
  /\ delete "optimizer"%string (ckpt 1) !! "optimizer"%string = None
  /\ Engine.unpack_checkpoint (delete "optimizer"%string (ckpt 1))
       PyNone PyNone PyNone PyNone [] (fresh tt)
     = (Raise KeyError, fresh tt).
Proof.
  assert (Hk : "optimizer"%string ∈ fixed_keys).
  { unfold fixed_keys. do 2 (apply elem_of_cons; right).
    apply elem_of_cons. left. reflexivity. }
  split; [exact Hk |]. split; [apply lookup_delete_eq |].
  exact (unpack_checkpoint_missing_key (fresh tt)
           (delete "optimizer"%string (ckpt 1)) PyNone PyNone PyNone PyNone []
           "optimizer" Hk (lookup_delete_eq _ _)).
Defined.

(** ** What the engine prints *)

Lemma save_all_stdout {W : Type} (l : list (gmap string pyval * string)) :
  forall m : machine W,
    stdout (snd (Engine.save_all l m))
    = stdout m ++ map (fun s => saved_line (snd s)) l
    /\ world (snd (Engine.save_all l m)) = world m
    /\ fst (Engine.save_all l m) = Ok PyNone.
Proof.
  induction l as [| [c p] l IH]; intros m.
  - cbn. rewrite app_nil_r. auto.
  - cbn [Engine.save_all]. unfold bind at 1 2 3. rewrite save_checkpoint_run.
    destruct (IH (mkMachine (Some c) (stdout m ++ [saved_line p]) (world m)))
      as (Hout & Hw & Hr).
    unfold saved_line in *. rewrite Hout, Hw, Hr. cbn.
    rewrite <- app_assoc. auto.
Qed.

(** X15.  The paths are only printed.  After a run of saves and a load on a
    fresh engine the output holds one line per call, naming each path in call
    order, and the world is untouched; the load prints its line also when it
    fails because nothing was saved. *)
Theorem checkpoint_calls_print_paths {W : Type} (w : W)
    (saves : list (gmap string pyval * string)) (p : string) :
  stdout (snd ((do Engine.save_all saves
                then Engine.load_checkpoint p) (fresh w)))
  = map (fun s => saved_line (snd s)) saves ++ [loaded_line p]
  /\ world (snd ((do Engine.save_all saves
                  then Engine.load_checkpoint p) (fresh w))) = w
  /\ stdout (snd (Engine.load_checkpoint p (fresh w))) = [loaded_line p]
  /\ fst (Engine.load_checkpoint p (fresh w)) = Raise AttributeError.
Proof.
  destruct (save_all_stdout saves (fresh w)) as (Hout & Hw & Hr).
  unfold bind at 1 2.
  destruct (Engine.save_all saves (fresh w)) as [[v | e] m'] eqn:Hrun;
    cbn in Hout, Hw, Hr; [| discriminate].
  unfold Engine.load_checkpoint, bind, print. cbn.
  rewrite Hout, Hw.
  destruct (checkpoint_dump m'); cbn; auto.
Qed.

(** ** Failing factories *)

Lemma traced_run {W : Type} (name : string) (f : callable W) (args : kwargs)
    (m : machine W) (tr : list event) :
  traced name f args (with_log m tr)
  = (fst (f args m), with_log (snd (f args m)) (tr ++ [Called name args])).
Proof.
  unfold traced, with_log. cbn. destruct m as [d o w]. cbn.
  destruct (f args (mkMachine d o w)) as [r m']. reflexivity.
Qed.

(** X16.  Whatever four factories are supplied and whether they return or
    raise, the factories [init_components] has invoked when it ends are a
    non-empty initial part of model_fn, criterion_fn, optimizer_fn,
    scheduler_fn, each invoked once; it returns a bundle only when all four
    were invoked. *)
Theorem init_components_invokes_prefix {W : Type}
    (model_fn criterion_fn optimizer_fn scheduler_fn : callable W)
    (m : machine W) :
  exists k : nat,
    (1 <= k <= 4)%nat
    /\ map event_fn
         (snd (world (snd (Engine.init_components
                             (Some (traced "model_fn" model_fn))
                             (Some (traced "criterion_fn" criterion_fn))
                             (Some (traced "optimizer_fn" optimizer_fn))
                             (Some (traced "scheduler_fn" scheduler_fn))
                             (with_log m [])))))
       = firstn k factory_order
    /\ (forall v : pyval,
          fst (Engine.init_components
                 (Some (traced "model_fn" model_fn))
                 (Some (traced "criterion_fn" criterion_fn))
                 (Some (traced "optimizer_fn" optimizer_fn))
                 (Some (traced "scheduler_fn" scheduler_fn))
                 (with_log m [])) = Ok v ->
          k = 4%nat).
Proof.
  unfold Engine.init_components, bind, call.
  rewrite traced_run.
  destruct (model_fn [] m) as [[v1 | e1] m1]; cbn [fst snd];
    [| exists 1%nat; cbn; repeat split; try lia; discriminate].
  rewrite traced_run.
  destruct (criterion_fn [] m1) as [[v2 | e2] m2]; cbn [fst snd];
    [| exists 2%nat; cbn; repeat split; try lia; discriminate].
  rewrite traced_run.
  destruct (optimizer_fn [("model"%string, v1)] m2) as [[v3 | e3] m3];
    cbn [fst snd];
    [| exists 3%nat; cbn; repeat split; try lia; discriminate].
  rewrite traced_run.
  destruct (scheduler_fn [("optimizer"%string, v3)] m3) as [[v4 | e4] m4];
    cbn [fst snd]; exists 4%nat; cbn; repeat split; lia.
Qed.

(** X17.  A factory that raises stops [init_components] at once: when
    [optimizer_fn] raises [e], [init_components] raises the same [e]
    uncaught, in the state [optimizer_fn] left, and [scheduler_fn] is not
    invoked. *)
Theorem init_components_propagates_failure {W : Type}
    (model_fn criterion_fn optimizer_fn scheduler_fn : callable W)
    (m0 m1 m2 m3 : machine W) (model criterion : pyval) (e : exn) :
  model_fn [] m0 = (Ok model, m1) ->
  criterion_fn [] m1 = (Ok criterion, m2) ->
  optimizer_fn [("model"%string, model)] m2 = (Raise e, m3) ->
  Engine.init_components (Some model_fn) (Some criterion_fn)
    (Some optimizer_fn) (Some scheduler_fn) m0
  = (Raise e, m3)
  /\ Engine.init_components
       (Some (traced "model_fn" model_fn))
       (Some (traced "criterion_fn" criterion_fn))
       (Some (traced "optimizer_fn" optimizer_fn))
       (Some (traced "scheduler_fn" scheduler_fn))
       (with_log m0 [])
     = (Raise e,
        with_log m3
          [Called "model_fn" [];
           Called "criterion_fn" [];
           Called "optimizer_fn" [("model"%string, model)]]).
Proof.
  intros Hm Hc Ho. split.
  - unfold Engine.init_components, bind, call. rewrite Hm, Hc, Ho.
    reflexivity.
  - unfold Engine.init_components, bind, call.
    rewrite traced_run, Hm. cbn [fst snd].
    rewrite traced_run, Hc. cbn [fst snd].
    rewrite traced_run, Ho. reflexivity.
Qed.

Lemma init_components_propagates_failure_witness :
  model_fn1 [] (fresh tt) = (Ok (PyInt 1), fresh tt)
  /\ criterion_fn2 [] (fresh tt) = (Ok (PyInt 2), fresh tt)
  /\ failing_fn [("model"%string, PyInt 1)] (fresh tt)
     = (Raise KeyError, fresh tt)
  /\ Engine.init_components (Some model_fn1) (Some criterion_fn2)
       (Some failing_fn) (Some scheduler_fn_id) (fresh tt)
     = (Raise KeyError, fresh tt).
Proof.
  repeat (split; [reflexivity |]).
  exact (proj1 (init_components_propagates_failure model_fn1 criterion_fn2
                  failing_fn scheduler_fn_id (fresh tt) (fresh tt) (fresh tt)
                  (fresh tt) (PyInt 1) (PyInt 2) KeyError
                  eq_refl eq_refl eq_refl)).
Defined.

(** ** The CSV lines of [LogdirLogger] *)

Lemma string_append_assoc (a b c : string) :
  String.append (String.append a b) c = String.append a (String.append b c).
Proof.
  induction a as [| x a IH]; [reflexivity |].
  change (String x (String.append (String.append a b) c)
          = String x (String.append a (String.append b c))).
  rewrite IH. reflexivity.
Qed.

Lemma drop_last_comma (s : string) :
  drop_last (String.append s ",") = s.
Proof.
  induction s as [| x s IH]; [reflexivity |].
  destruct s as [| y s0]; [reflexivity |].
  change (String x (drop_last (String.append (String y s0) ","))
          = String x (String y s0)).
  rewrite IH. reflexivity.
Qed.

Lemma concat_join_head (a b : string) (l : list string) :
  String.concat "," (String.append a (String.append "," b) :: l)
  = String.concat "," (a :: b :: l).
Proof.
  destruct l as [| c l]; [reflexivity |].
  cbn [String.concat]. rewrite !string_append_assoc. reflexivity.
Qed.

(** Appending each field followed by a comma and then dropping the last
    character gives the fields joined by commas. *)
Lemma drop_last_fold_commas (ks : list string) :
  forall x : string,
    drop_last
      (fold_left (fun acc k => String.append acc (String.append k ","))
         ks (String.append x ","))
    = String.concat "," (x :: ks).
Proof.
  induction ks as [| k ks IH]; intros x.
  - cbn [fold_left String.concat]. apply drop_last_comma.
  - cbn [fold_left].
    replace (String.append (String.append x ",") (String.append k ","))
      with (String.append (String.append x (String.append "," k)) ",")
      by (rewrite !string_append_assoc; reflexivity).
    rewrite IH. apply concat_join_head.
Qed.

Lemma sorted_keys_elem {V : Type} (d : gmap string V) (k : string) :
  k ∈ sorted_keys d <-> is_Some (d !! k).
Proof.
  unfold sorted_keys. rewrite sorting.merge_sort_Permutation.
  rewrite list_elem_of_fmap. split.
  - intros ([k' x] & -> & Hin). apply elem_of_map_to_list in Hin. eauto.
  - intros [x Hx]. exists (k, x). split; [reflexivity |].
    apply elem_of_map_to_list. exact Hx.
Qed.

(** X18.  The header line of a CSV file is ["step"] and the metric names in
    sorted order, each name once, joined by commas and ended by a newline:
    stripping the last character removes exactly the trailing comma, also
    when there is no metric at all (the line is then ["step"]). *)
Theorem header_line_is_joined_sorted_names {V : Type} (metrics : gmap string V) :
  LogdirLogger.header_line metrics
  = String.append (String.concat "," ("step"%string :: sorted_keys metrics))
      newline
  /\ Sorting.Sorted.Sorted string_le (sorted_keys metrics)
  /\ sorted_keys metrics ≡ₚ map fst (map_to_list metrics)
  /\ NoDup (sorted_keys metrics)
  /\ LogdirLogger.header_line (∅ : gmap string V)
     = String.append "step" newline.
Proof.
  split; [| split; [| split; [| split]]].
  - unfold LogdirLogger.header_line. f_equal.
    apply (drop_last_fold_commas (sorted_keys metrics) "step").
  - apply sorting.Sorted_merge_sort. apply _.
  - apply sorting.merge_sort_Permutation.
  - unfold sorted_keys. rewrite sorting.merge_sort_Permutation.
    apply NoDup_fst_map_to_list.
  - reflexivity.
Qed.

Section LogdirLoggerRows.

Context {V : Type} (str : V -> string) (str_int : Z -> string)
        (path_join : string -> string -> string).

(** The loop over the keys cannot hit a missing key when the keys are those
    of the dict, and it appends the printed values in the order of the
    keys. *)
Lemma append_values_ok (metrics : gmap string V) (keys : list string) :
  forall acc : string,
    Forall (fun k => is_Some (metrics !! k)) keys ->
    exists vals : list string,
      Forall2 (fun k s => exists x, metrics !! k = Some x /\ s = str x)
        keys vals
      /\ LogdirLogger.append_values str metrics keys acc
         = Ok (fold_left
                 (fun acc s => String.append acc (String.append s ","))
                 vals acc).
Proof.
  induction keys as [| k keys IH]; intros acc Hkeys.
  - exists []. split; [constructor | reflexivity].
  - apply Forall_cons in Hkeys as [[x Hx] Hkeys].
    destruct (IH (String.append acc (String.append (str x) ",")) Hkeys)
      as (vals & Hvals & Hrun).
    exists (str x :: vals). split.
    + constructor; [eauto | exact Hvals].
    + cbn [LogdirLogger.append_values fold_left]. rewrite Hx. exact Hrun.
Qed.

Lemma row_line_ok (metrics : gmap string V) (step : Z) :
  exists vals : list string,
    Forall2 (fun k s => exists x, metrics !! k = Some x /\ s = str x)
      (sorted_keys metrics) vals
    /\ LogdirLogger.row_line str str_int metrics step
       = Ok (String.append (String.concat "," (str_int step :: vals)) newline).
Proof.
  destruct (append_values_ok metrics (sorted_keys metrics)
              (String.append (str_int step) ","))
    as (vals & Hvals & Hrun).
  - apply Forall_forall. intros k Hk. apply sorted_keys_elem. exact Hk.
  - exists vals. split; [exact Hvals |].
    unfold LogdirLogger.row_line. rewrite Hrun.
    rewrite drop_last_fold_commas. reflexivity.
Qed.

(** X19.  A row never fails on a missing key and lines up with the header:
    it is the step and then, for each header column in order, the printed
    value of the metric of that name, joined by commas and ended by a
    newline; so it has as many fields as the header. *)
Theorem row_line_matches_header (metrics : gmap string V) (step : Z) :
  exists vals : list string,
    LogdirLogger.row_line str str_int metrics step
    = Ok (String.append (String.concat "," (str_int step :: vals)) newline)
    /\ Forall2 (fun k s => exists x, metrics !! k = Some x /\ s = str x)
         (sorted_keys metrics) vals
    /\ length vals = length (sorted_keys metrics)
    /\ LogdirLogger.header_line metrics
       = String.append
           (String.concat "," ("step"%string :: sorted_keys metrics)) newline.
Proof.
  destruct (row_line_ok metrics step) as (vals & Hvals & Hrow).
  exists vals. split; [exact Hrow |]. split; [exact Hvals |].
  split; [symmetry; eapply Forall2_length; exact Hvals |].
  unfold LogdirLogger.header_line. f_equal.
  apply (drop_last_fold_commas (sorted_keys metrics) "step").
Qed.





End LogdirLoggerRows.

